(** * JSON-LD structured data for blog posts

    Verification of the two schema generators of the Blog feature:
    [generateArticleSchema] (features/Blog/lib/generateArticleSchema.ts) and
    [generateBreadcrumbSchema] (features/Blog/lib/generateBreadcrumbSchema.ts).

    Both functions take references to JavaScript objects, read them, build a
    fresh object literal, in one case assign two more properties to it, and
    return the reference.  They are embedded as computations of a state and
    error monad over a heap of typed objects, so that "returns", "does not
    mutate its input" and "has no side effect" are statements about runs of
    the embedded code.

    Conventions of the embedding:
    - a TypeScript [string] is a [string]; template literals and [+] are
      [String.append] (written [+:+]); [s.startsWith(t)] is [String.prefix t s];
    - an optional property [f?: T] is a field of type [option T], [None]
      standing for [undefined] (property absent);
    - a literal-typed property such as ['@type': 'Article'] is a [string]
      field, so that its value is stated and proved rather than assumed;
    - a [number] that only ever holds the integer literals of the source is
      a [Z];
    - the nested object literals (author, publisher, logo, the list items)
      are reachable only through the fresh schema object, so they are stored
      by value inside it. *)

From stdpp Require Import gmap strings list fin_maps.
From Stdlib Require Import ZArith Ascii.
From Stdlib Require DecimalString.

Local Open Scope string_scope.

(* ===================================================================== *)
(** ** Data model *)
(* ===================================================================== *)

Module Heading.
Record t := mk { id : string; text : string; level : Z }.
End Heading.

(** Modelled from the spec: the [BlogPost] interface is declared in
    [../types/blog], which is not among the sources.  The fields are those
    of spec section 3 (title, description, slug, publishedAt, optional
    updatedAt, author, locale, optional featuredImage) together with the
    remaining ones of the record built by [blogPostArb] in the property
    tests.  [Locale] and [Category] are unions of string literals and are
    kept as strings. *)
Module BlogPost.
Record t := mk {
  title : string;
  description : string;
  slug : string;
  publishedAt : string;
  updatedAt : option string;
  author : string;
  category : string;
  tags : list string;
  featuredImage : option string;
  readingTime : Z;
  difficulty : option string;
  relatedPosts : option (list string);
  locale : string;
  content : string;
  headings : list Heading.t
}.
End BlogPost.

Module ImageObject.
Record t := mk { type : string; url : string }.
End ImageObject.

Module Person.
Record t := mk { type : string; name : string }.
End Person.

Module Organization.
Record t := mk { type : string; name : string; logo : option ImageObject.t }.
End Organization.

(** [interface ArticleSchema] *)
Module ArticleSchema.
Record t := mk {
  context : string;
  type : string;
  headline : string;
  description : string;
  datePublished : string;
  dateModified : option string;
  author : Person.t;
  publisher : Organization.t;
  mainEntityOfPage : string;
  image : option string
}.

(** [schema.dateModified = v] *)
Definition set_dateModified (v : option string) (s : t) : t :=
  mk (context s) (type s) (headline s) (description s) (datePublished s)
     v (author s) (publisher s) (mainEntityOfPage s) (image s).

(** [schema.image = v] *)
Definition set_image (v : option string) (s : t) : t :=
  mk (context s) (type s) (headline s) (description s) (datePublished s)
     (dateModified s) (author s) (publisher s) (mainEntityOfPage s) v.
End ArticleSchema.

(** [interface ArticleSchemaOptions] *)
Module ArticleSchemaOptions.
Record t := mk {
  baseUrl : option string;
  publisherName : option string;
  publisherLogo : option string
}.
(** the object literal [{}] *)
Definition empty : t := mk None None None.
End ArticleSchemaOptions.

(** [interface BreadcrumbListItem] *)
Module BreadcrumbListItem.
Record t := mk { type : string; position : Z; name : string; item : string }.
End BreadcrumbListItem.

(** [interface BreadcrumbSchema] *)
Module BreadcrumbSchema.
Record t := mk {
  context : string;
  type : string;
  itemListElement : list BreadcrumbListItem.t
}.
End BreadcrumbSchema.

(** [interface BreadcrumbSchemaOptions] *)
Module BreadcrumbSchemaOptions.
Record t := mk {
  baseUrl : option string;
  homeLabel : option string;
  blogLabel : option string
}.
Definition empty : t := mk None None None.
End BreadcrumbSchemaOptions.

(* ===================================================================== *)
(** ** Heap of objects and the monad of the embedding *)
(* ===================================================================== *)

(** Object references. *)
Abbreviation loc := positive.

(** What a heap cell holds: an object of one of the interfaces above. *)
Inductive object :=
| OBlogPost (p : BlogPost.t)
| OArticleSchemaOptions (o : ArticleSchemaOptions.t)
| OArticleSchema (s : ArticleSchema.t)
| OBreadcrumbSchemaOptions (o : BreadcrumbSchemaOptions.t)
| OBreadcrumbSchema (s : BreadcrumbSchema.t).

Abbreviation heap := (gmap loc object).

(** A computation reads and writes the heap and may throw ([None]). *)
Definition M (A : Type) : Type := heap → option (A * heap).

Definition ret {A} (a : A) : M A := λ σ, Some (a, σ).

Definition bind {A B} (m : M A) (k : A → M B) : M B :=
  λ σ, match m σ with
       | Some (a, σ') => k a σ'
       | None => None
       end.

(** [throw new TypeError(...)] *)
Definition throw {A} : M A := λ _, None.

Declare Scope js_scope.
Delimit Scope js_scope with js.
Notation "'let*' x ':=' m 'in' k" := (bind m (λ x, k))
  (at level 10, x name, m at level 100, k at level 200) : js_scope.
Notation "m ';;;' k" := (bind m (λ _, k))
  (at level 100, k at level 200, right associativity) : js_scope.

Local Open Scope js_scope.

(** Evaluation of an object literal: a fresh cell. *)
Definition alloc (o : object) : M loc :=
  λ σ, let l := fresh (dom σ) in Some (l, <[l := o]> σ).

(** Property reads [post.f], [options.f]. *)
Definition get_post {A} (l : loc) (f : BlogPost.t → A) : M A :=
  λ σ, match σ !! l with
       | Some (OBlogPost p) => Some (f p, σ)
       | _ => None
       end.

Definition get_article_options {A} (l : loc) (f : ArticleSchemaOptions.t → A)
  : M A :=
  λ σ, match σ !! l with
       | Some (OArticleSchemaOptions o) => Some (f o, σ)
       | _ => None
       end.

Definition get_breadcrumb_options {A} (l : loc)
    (f : BreadcrumbSchemaOptions.t → A) : M A :=
  λ σ, match σ !! l with
       | Some (OBreadcrumbSchemaOptions o) => Some (f o, σ)
       | _ => None
       end.

(** Property assignment [schema.f = v] on an Article schema object. *)
Definition update_article (l : loc) (f : ArticleSchema.t → ArticleSchema.t)
  : M unit :=
  λ σ, match σ !! l with
       | Some (OArticleSchema s) => Some (tt, <[l := OArticleSchema (f s)]> σ)
       | _ => None
       end.

(** A parameter with a default value, [x : T = e]: [e] is evaluated when the
    argument is [undefined]. *)
Definition default_param {A} (arg : option A) (e : M A) : M A :=
  match arg with
  | Some a => ret a
  | None => e
  end.

(** The object a call returned, read back from the heap it left. *)
Definition returned (m : M loc) (σ : heap) : option object :=
  match m σ with
  | Some (r, σ') => σ' !! r
  | None => None
  end.

(* ===================================================================== *)
(** ** JavaScript operators used by the generators *)
(* ===================================================================== *)

(** [v ?? d]: [d] when [v] is [undefined], [v] otherwise. *)
Definition nullish (v : option string) (d : string) : string :=
  match v with
  | Some s => s
  | None => d
  end.
Notation "v ?? d" := (nullish v d) (at level 45, left associativity) : js_scope.

(** Truthiness of a [string | undefined]: [undefined] and the empty string
    are falsy, every other string is truthy. *)
Definition truthy (v : option string) : bool :=
  match v with
  | Some EmptyString => false
  | Some (String _ _) => true
  | None => false
  end.

(** [s.startsWith(t)] *)
Definition startsWith (s t : string) : bool := String.prefix t s.

(* ===================================================================== *)
(** ** generateArticleSchema.ts *)
(* ===================================================================== *)

Definition BASE_URL : string := "https://kanadojo.com".
Definition PUBLISHER_NAME : string := "KanaDojo".
Definition PUBLISHER_LOGO : string := "https://kanadojo.com/logo.png".

Definition generateArticleSchema (post : loc) (options : option loc) : M loc :=
  let* options :=
    default_param options
      (alloc (OArticleSchemaOptions ArticleSchemaOptions.empty)) in
  let* options_baseUrl :=
    get_article_options options ArticleSchemaOptions.baseUrl in
  let baseUrl := options_baseUrl ?? BASE_URL in
  let* options_publisherName :=
    get_article_options options ArticleSchemaOptions.publisherName in
  let publisherName := options_publisherName ?? PUBLISHER_NAME in
  let* options_publisherLogo :=
    get_article_options options ArticleSchemaOptions.publisherLogo in
  let publisherLogo := options_publisherLogo ?? PUBLISHER_LOGO in
  let* post_locale := get_post post BlogPost.locale in
  let* post_slug := get_post post BlogPost.slug in
  let mainEntityOfPage :=
    baseUrl +:+ "/" +:+ post_locale +:+ "/blog/" +:+ post_slug in
  let* post_title := get_post post BlogPost.title in
  let* post_description := get_post post BlogPost.description in
  let* post_publishedAt := get_post post BlogPost.publishedAt in
  let* post_author := get_post post BlogPost.author in
  let* schema :=
    alloc (OArticleSchema {|
      ArticleSchema.context := "https://schema.org";
      ArticleSchema.type := "Article";
      ArticleSchema.headline := post_title;
      ArticleSchema.description := post_description;
      ArticleSchema.datePublished := post_publishedAt;
      ArticleSchema.dateModified := None;
      ArticleSchema.author :=
        {| Person.type := "Person"; Person.name := post_author |};
      ArticleSchema.publisher :=
        {| Organization.type := "Organization";
           Organization.name := publisherName;
           Organization.logo :=
             Some {| ImageObject.type := "ImageObject";
                     ImageObject.url := publisherLogo |} |};
      ArticleSchema.mainEntityOfPage := mainEntityOfPage;
      ArticleSchema.image := None
    |}) in
  (* Add dateModified if present *)
  (let* post_updatedAt := get_post post BlogPost.updatedAt in
   if truthy post_updatedAt then
     let* post_updatedAt := get_post post BlogPost.updatedAt in
     update_article schema (ArticleSchema.set_dateModified post_updatedAt)
   else ret tt) ;;;
  (* Add featured image if present *)
  (let* post_featuredImage := get_post post BlogPost.featuredImage in
   if truthy post_featuredImage then
     let* receiver := get_post post BlogPost.featuredImage in
     match receiver with
     | None => throw
     | Some receiver =>
         if startsWith receiver "http" then
           let* post_featuredImage := get_post post BlogPost.featuredImage in
           update_article schema (ArticleSchema.set_image post_featuredImage)
         else
           let* post_featuredImage := get_post post BlogPost.featuredImage in
           match post_featuredImage with
           | None =>
               update_article schema
                 (ArticleSchema.set_image (Some (baseUrl +:+ "undefined")))
           | Some post_featuredImage =>
               update_article schema
                 (ArticleSchema.set_image
                    (Some (baseUrl +:+ post_featuredImage)))
           end
     end
   else ret tt) ;;;
  ret schema.

(* ===================================================================== *)
(** ** generateBreadcrumbSchema.ts *)
(* ===================================================================== *)

Module Breadcrumb.
(** The module has its own constant of this name. *)
Definition BASE_URL : string := "https://kanadojo.com".
End Breadcrumb.

Definition generateBreadcrumbSchema (post : loc) (options : option loc)
  : M loc :=
  let* options :=
    default_param options
      (alloc (OBreadcrumbSchemaOptions BreadcrumbSchemaOptions.empty)) in
  let* options_baseUrl :=
    get_breadcrumb_options options BreadcrumbSchemaOptions.baseUrl in
  let baseUrl := options_baseUrl ?? Breadcrumb.BASE_URL in
  let* options_homeLabel :=
    get_breadcrumb_options options BreadcrumbSchemaOptions.homeLabel in
  let homeLabel := options_homeLabel ?? "Home" in
  let* options_blogLabel :=
    get_breadcrumb_options options BreadcrumbSchemaOptions.blogLabel in
  let blogLabel := options_blogLabel ?? "Blog" in
  let* post_locale1 := get_post post BlogPost.locale in
  let* post_locale2 := get_post post BlogPost.locale in
  let* post_title := get_post post BlogPost.title in
  let* post_locale3 := get_post post BlogPost.locale in
  let* post_slug := get_post post BlogPost.slug in
  let* schema :=
    alloc (OBreadcrumbSchema {|
      BreadcrumbSchema.context := "https://schema.org";
      BreadcrumbSchema.type := "BreadcrumbList";
      BreadcrumbSchema.itemListElement := [
        {| BreadcrumbListItem.type := "ListItem";
           BreadcrumbListItem.position := 1;
           BreadcrumbListItem.name := homeLabel;
           BreadcrumbListItem.item := baseUrl +:+ "/" +:+ post_locale1 |};
        {| BreadcrumbListItem.type := "ListItem";
           BreadcrumbListItem.position := 2;
           BreadcrumbListItem.name := blogLabel;
           BreadcrumbListItem.item :=
             baseUrl +:+ "/" +:+ post_locale2 +:+ "/blog" |};
        {| BreadcrumbListItem.type := "ListItem";
           BreadcrumbListItem.position := 3;
           BreadcrumbListItem.name := post_title;
           BreadcrumbListItem.item :=
             baseUrl +:+ "/" +:+ post_locale3 +:+ "/blog/" +:+ post_slug |}
      ] |}) in
  ret schema.

(* ===================================================================== *)
(** ** Generators of the property tests *)
(* ===================================================================== *)

(** The two test files build their posts from the same arbitraries.  The
    callbacks that [dateArb] and [slugArb] map over the generated values
    are embedded here; the ranges and patterns of the values they receive
    are hypotheses of the theorems about them. *)

(** Conversion of an integer-valued [number] to a string, as [String(n)]
    and template literals do it: the decimal digits, "-" in front of a
    negative one.  (From 1e21 on JavaScript prints an exponent; the
    generators stay far below.) *)
Definition number_toString (n : Z) : string :=
  DecimalString.NilZero.string_of_int (Z.to_int n).

(** The first [fillLen] characters of [fillString] repeated without end,
    [rest] being what is left of the repetition under way. *)
Fixpoint filler (fillString rest : string) (fillLen : nat) : string :=
  match fillLen with
  | O => ""
  | S n =>
      match rest with
      | String c rest' => String c (filler fillString rest' n)
      | "" =>
          match fillString with
          | String c rest' => String c (filler fillString rest' n)
          | "" => ""
          end
      end
  end.

(** [s.padStart(maxLength, fillString)]: [s] itself when it is long enough
    or the fill string is empty, otherwise [s] behind as much of the
    repeated fill string as is needed to reach [maxLength]. *)
Definition padStart (s : string) (maxLength : nat) (fillString : string)
  : string :=
  if (maxLength <=? String.length s)%nat then s
  else if decide (fillString = "") then s
  else filler fillString fillString (maxLength - String.length s) +:+ s.

(** The record [{ year, month, day }] that [dateArb] generates. *)
Module DateParts.
Record t := mk { year : Z; month : Z; day : Z }.
End DateParts.

(** The callback of [dateArb]:
    [`${year}-${String(month).padStart(2, '0')}-${String(day).padStart(2, '0')}`] *)
Definition dateArb_map (d : DateParts.t) : string :=
  number_toString (DateParts.year d) +:+ "-" +:+
  padStart (number_toString (DateParts.month d)) 2 "0" +:+ "-" +:+
  padStart (number_toString (DateParts.day d)) 2 "0".

(** The values [fc.record] hands to that callback:
    [fc.integer({ min: 2020, max: 2030 })] and so on. *)
Definition dateArb_record (d : DateParts.t) : Prop :=
  (2020 ≤ DateParts.year d ≤ 2030)%Z ∧
  (1 ≤ DateParts.month d ≤ 12)%Z ∧
  (1 ≤ DateParts.day d ≤ 28)%Z.

(** [parts.join(sep)] on an array of strings. *)
Definition join (parts : list string) (sep : string) : string :=
  String.concat sep parts.

(** The callback of [slugArb]: [parts => parts.join('-')] *)
Definition slugArb_map (parts : list string) : string := join parts "-".

(* ===================================================================== *)
(** ** Specification vocabulary *)
(* ===================================================================== *)

(** [wp m σ Q]: run from [σ], [m] returns, and its result and final heap
    satisfy [Q]. *)
Definition wp {A} (m : M A) (σ : heap) (Q : A → heap → Prop) : Prop :=
  match m σ with
  | Some (a, σ') => Q a σ'
  | None => False
  end.

(** The options a call sees: the object passed, or [{}] when the argument is
    left out. *)
Definition article_options_at (σ : heap) (options : option loc)
    (o : ArticleSchemaOptions.t) : Prop :=
  match options with
  | Some l => σ !! l = Some (OArticleSchemaOptions o)
  | None => o = ArticleSchemaOptions.empty
  end.

Definition breadcrumb_options_at (σ : heap) (options : option loc)
    (o : BreadcrumbSchemaOptions.t) : Prop :=
  match options with
  | Some l => σ !! l = Some (OBreadcrumbSchemaOptions o)
  | None => o = BreadcrumbSchemaOptions.empty
  end.

(** What [generateArticleSchema] leaves in [schema.dateModified]. *)
Definition dateModified_of (p : BlogPost.t) : option string :=
  if truthy (BlogPost.updatedAt p) then BlogPost.updatedAt p else None.

(** What [generateArticleSchema] leaves in [schema.image]. *)
Definition image_of (baseUrl : string) (p : BlogPost.t) : option string :=
  match BlogPost.featuredImage p with
  | Some f =>
      if truthy (Some f) then
        Some (if startsWith f "http" then f else baseUrl +:+ f)
      else None
  | None => None
  end.

(** The object [generateArticleSchema] returns, as a function of the
    contents of its two arguments. *)
Definition article_of (p : BlogPost.t) (o : ArticleSchemaOptions.t)
  : ArticleSchema.t :=
  let baseUrl := ArticleSchemaOptions.baseUrl o ?? BASE_URL in
  {| ArticleSchema.context := "https://schema.org";
     ArticleSchema.type := "Article";
     ArticleSchema.headline := BlogPost.title p;
     ArticleSchema.description := BlogPost.description p;
     ArticleSchema.datePublished := BlogPost.publishedAt p;
     ArticleSchema.dateModified := dateModified_of p;
     ArticleSchema.author :=
       {| Person.type := "Person"; Person.name := BlogPost.author p |};
     ArticleSchema.publisher :=
       {| Organization.type := "Organization";
          Organization.name :=
            ArticleSchemaOptions.publisherName o ?? PUBLISHER_NAME;
          Organization.logo :=
            Some {| ImageObject.type := "ImageObject";
                    ImageObject.url :=
                      ArticleSchemaOptions.publisherLogo o ?? PUBLISHER_LOGO |}
       |};
     ArticleSchema.mainEntityOfPage :=
       baseUrl +:+ "/" +:+ BlogPost.locale p +:+ "/blog/" +:+ BlogPost.slug p;
     ArticleSchema.image := image_of baseUrl p |}.

(** The object [generateBreadcrumbSchema] returns, as a function of the
    contents of its two arguments. *)
Definition breadcrumb_of (p : BlogPost.t) (o : BreadcrumbSchemaOptions.t)
  : BreadcrumbSchema.t :=
  let baseUrl := BreadcrumbSchemaOptions.baseUrl o ?? Breadcrumb.BASE_URL in
  {| BreadcrumbSchema.context := "https://schema.org";
     BreadcrumbSchema.type := "BreadcrumbList";
     BreadcrumbSchema.itemListElement := [
       {| BreadcrumbListItem.type := "ListItem";
          BreadcrumbListItem.position := 1;
          BreadcrumbListItem.name :=
            BreadcrumbSchemaOptions.homeLabel o ?? "Home";
          BreadcrumbListItem.item := baseUrl +:+ "/" +:+ BlogPost.locale p |};
       {| BreadcrumbListItem.type := "ListItem";
          BreadcrumbListItem.position := 2;
          BreadcrumbListItem.name :=
            BreadcrumbSchemaOptions.blogLabel o ?? "Blog";
          BreadcrumbListItem.item :=
            baseUrl +:+ "/" +:+ BlogPost.locale p +:+ "/blog" |};
       {| BreadcrumbListItem.type := "ListItem";
          BreadcrumbListItem.position := 3;
          BreadcrumbListItem.name := BlogPost.title p;
          BreadcrumbListItem.item :=
            baseUrl +:+ "/" +:+ BlogPost.locale p +:+ "/blog/"
            +:+ BlogPost.slug p |} ] |}.

(** The effect of a call on the heap: the cells that existed are unchanged,
    and the returned reference is a cell that did not exist. *)
Definition only_allocates (σ σ' : heap) (r : loc) : Prop :=
  σ ⊆ σ' ∧ σ !! r = None.

(** How an optional override decides the value a generator uses: the
    supplied value when there is one, the constant otherwise. *)
Definition override_or_default (override : option string)
    (constant used : string) : Prop :=
  match override with
  | Some v => used = v
  | None => used = constant
  end.

(** Decimal digits, and the characters of [[a-z0-9]]. *)
Definition is_digit (c : ascii) : bool :=
  (48 <=? nat_of_ascii c)%nat && (nat_of_ascii c <=? 57)%nat.

Definition is_lower_alnum (c : ascii) : bool :=
  is_digit c || (97 <=? nat_of_ascii c)%nat && (nat_of_ascii c <=? 122)%nat.


(** Reading a date back, for the proof that distinct dates print
    differently. *)
Definition parse_number (s : string) : option Z :=
  Z.of_int <$> DecimalString.NilZero.int_of_string s.

Definition parse_date (s : string) : option DateParts.t :=
  y ← parse_number (String.substring 0 4 s);
  m ← parse_number (String.substring 5 2 s);
  d ← parse_number (String.substring 8 2 s);
  Some (DateParts.mk y m d).

(** A check on every record [dateArb] can generate. *)
Definition dateArb_all (check : DateParts.t → bool) : bool :=
  forallb (λ y,
    forallb (λ m,
      forallb (λ d, check (DateParts.mk y m d)) (seqZ 1 28))
      (seqZ 1 12))
    (seqZ 2020 11).

(** Strings matching [/^[a-z0-9]+$/], the parts [slugArb] joins. *)
Fixpoint all_chars (P : ascii → bool) (s : string) : bool :=
  match s with
  | "" => true
  | String c s' => P c && all_chars P s'
  end.

Definition is_slug_part (s : string) : bool :=
  match s with
  | "" => false
  | _ => all_chars is_lower_alnum s
  end.

(** Strings matching [/^[a-z0-9]+(-[a-z0-9]+)*$/]: [after_alnum] says
    whether the character before the rest of the string was of [[a-z0-9]]. *)
Fixpoint slug_from (after_alnum : bool) (s : string) : bool :=
  match s with
  | "" => after_alnum
  | String c s' =>
      if is_lower_alnum c then slug_from true s'
      else if Ascii.eqb c "-" then after_alnum && slug_from false s'
      else false
  end.

Definition is_slug (s : string) : bool := slug_from false s.

(* ===================================================================== *)
(** ** Example inputs *)
(* ===================================================================== *)

(** The post of the spec's example; the fields the example leaves out are
    empty or absent. *)
Definition intro_post : BlogPost.t :=
  {| BlogPost.title := "Intro";
     BlogPost.description := "d";
     BlogPost.slug := "intro";
     BlogPost.publishedAt := "2024-01-01";
     BlogPost.updatedAt := None;
     BlogPost.author := "Jane";
     BlogPost.category := "";
     BlogPost.tags := [];
     BlogPost.featuredImage := None;
     BlogPost.readingTime := 0;
     BlogPost.difficulty := None;
     BlogPost.relatedPosts := None;
     BlogPost.locale := "en";
     BlogPost.content := "";
     BlogPost.headings := [] |}.

Definition intro_heap : heap := {[ 1%positive := OBlogPost intro_post ]}.

(** A post that has been updated and carries a site-relative image, as the
    property tests generate them. *)
Definition updated_post : BlogPost.t :=
  {| BlogPost.title := "Intro";
     BlogPost.description := "An introduction to kana";
     BlogPost.slug := "intro";
     BlogPost.publishedAt := "2024-01-01";
     BlogPost.updatedAt := Some "2024-02-03";
     BlogPost.author := "Jane";
     BlogPost.category := "hiragana";
     BlogPost.tags := ["kana"];
     BlogPost.featuredImage := Some "/blog/image1.jpg";
     BlogPost.readingTime := 5;
     BlogPost.difficulty := Some "beginner";
     BlogPost.relatedPosts := Some [];
     BlogPost.locale := "en";
     BlogPost.content := "text";
     BlogPost.headings := [Heading.mk "start" "Start" 2] |}.

(** A post whose optional date and image are present but empty strings. *)
Definition blank_post : BlogPost.t :=
  {| BlogPost.title := "Intro";
     BlogPost.description := "d";
     BlogPost.slug := "intro";
     BlogPost.publishedAt := "2024-01-01";
     BlogPost.updatedAt := Some "";
     BlogPost.author := "Jane";
     BlogPost.category := "";
     BlogPost.tags := [];
     BlogPost.featuredImage := Some "";
     BlogPost.readingTime := 0;
     BlogPost.difficulty := None;
     BlogPost.relatedPosts := None;
     BlogPost.locale := "en";
     BlogPost.content := "";
     BlogPost.headings := [] |}.

Definition staging_article_options : ArticleSchemaOptions.t :=
  {| ArticleSchemaOptions.baseUrl := Some "https://staging.example";
     ArticleSchemaOptions.publisherName := None;
     ArticleSchemaOptions.publisherLogo := Some "https://staging.example/l.png" |}.

Definition staging_breadcrumb_options : BreadcrumbSchemaOptions.t :=
  {| BreadcrumbSchemaOptions.baseUrl := Some "https://staging.example";
     BreadcrumbSchemaOptions.homeLabel := Some "Start";
     BreadcrumbSchemaOptions.blogLabel := None |}.

(** A heap with the three posts and the two options objects. *)
Definition site_heap : heap :=
  <[ 1%positive := OBlogPost intro_post ]>
  (<[ 2%positive := OBlogPost updated_post ]>
  (<[ 3%positive := OBlogPost blank_post ]>
  (<[ 4%positive := OArticleSchemaOptions staging_article_options ]>
  (<[ 5%positive := OBreadcrumbSchemaOptions staging_breadcrumb_options ]> ∅)))).

(** A post whose image is an absolute URL. *)
Definition cdn_post : BlogPost.t :=
  {| BlogPost.title := "Katakana";
     BlogPost.description := "The second syllabary";
     BlogPost.slug := "katakana-basics";
     BlogPost.publishedAt := "2024-03-01";
     BlogPost.updatedAt := None;
     BlogPost.author := "Ken";
     BlogPost.category := "katakana";
     BlogPost.tags := ["kana"];
     BlogPost.featuredImage := Some "https://cdn.example/kana.png";
     BlogPost.readingTime := 7;
     BlogPost.difficulty := None;
     BlogPost.relatedPosts := Some ["intro"];
     BlogPost.locale := "ja";
     BlogPost.content := "text";
     BlogPost.headings := [] |}.

Definition cdn_heap : heap := {[ 6%positive := OBlogPost cdn_post ]}.

(** The updated post and the same options objects at other addresses. *)
Definition mirror_heap : heap :=
  <[ 7%positive := OBlogPost updated_post ]>
  (<[ 8%positive := OBreadcrumbSchemaOptions staging_breadcrumb_options ]>
  (<[ 9%positive := OArticleSchemaOptions staging_article_options ]> ∅)).

(** Options objects that spell out the defaults, as the property tests
    pass them ([{ baseUrl: BASE_URL }]), and options objects whose overrides
    are empty strings. *)
Definition test_article_options : ArticleSchemaOptions.t :=
  {| ArticleSchemaOptions.baseUrl := Some "https://kanadojo.com";
     ArticleSchemaOptions.publisherName := None;
     ArticleSchemaOptions.publisherLogo := None |}.

Definition test_breadcrumb_options : BreadcrumbSchemaOptions.t :=
  {| BreadcrumbSchemaOptions.baseUrl := Some "https://kanadojo.com";
     BreadcrumbSchemaOptions.homeLabel := None;
     BreadcrumbSchemaOptions.blogLabel := None |}.

Definition blank_article_options : ArticleSchemaOptions.t :=
  {| ArticleSchemaOptions.baseUrl := Some "";
     ArticleSchemaOptions.publisherName := Some "";
     ArticleSchemaOptions.publisherLogo := Some "" |}.

Definition blank_breadcrumb_options : BreadcrumbSchemaOptions.t :=
  {| BreadcrumbSchemaOptions.baseUrl := Some "";
     BreadcrumbSchemaOptions.homeLabel := Some "";
     BreadcrumbSchemaOptions.blogLabel := Some "" |}.

(** A post whose image is a relative file name that begins with "http", and
    one whose image is an absolute URL in capitals. *)
Definition http_named_post : BlogPost.t :=
  {| BlogPost.title := "HTTP for learners";
     BlogPost.description := "d";
     BlogPost.slug := "http-for-learners";
     BlogPost.publishedAt := "2024-04-01";
     BlogPost.updatedAt := None;
     BlogPost.author := "Jane";
     BlogPost.category := "";
     BlogPost.tags := [];
     BlogPost.featuredImage := Some "http-cover.png";
     BlogPost.readingTime := 3;
     BlogPost.difficulty := None;
     BlogPost.relatedPosts := None;
     BlogPost.locale := "en";
     BlogPost.content := "";
     BlogPost.headings := [] |}.

Definition capitals_post : BlogPost.t :=
  {| BlogPost.title := "Capitals";
     BlogPost.description := "d";
     BlogPost.slug := "capitals";
     BlogPost.publishedAt := "2024-04-02";
     BlogPost.updatedAt := None;
     BlogPost.author := "Jane";
     BlogPost.category := "";
     BlogPost.tags := [];
     BlogPost.featuredImage := Some "HTTPS://CDN.EXAMPLE/K.PNG";
     BlogPost.readingTime := 3;
     BlogPost.difficulty := None;
     BlogPost.relatedPosts := None;
     BlogPost.locale := "en";
     BlogPost.content := "";
     BlogPost.headings := [] |}.

(** A heap with all the example posts and options objects. *)
Definition blog_heap : heap :=
  <[ 1%positive := OBlogPost intro_post ]>
  (<[ 2%positive := OBlogPost updated_post ]>
  (<[ 3%positive := OBlogPost blank_post ]>
  (<[ 4%positive := OArticleSchemaOptions staging_article_options ]>
  (<[ 5%positive := OBreadcrumbSchemaOptions staging_breadcrumb_options ]>
  (<[ 6%positive := OBlogPost cdn_post ]>
  (<[ 10%positive := OArticleSchemaOptions test_article_options ]>
  (<[ 11%positive := OBreadcrumbSchemaOptions test_breadcrumb_options ]>
  (<[ 12%positive := OArticleSchemaOptions blank_article_options ]>
  (<[ 13%positive := OBreadcrumbSchemaOptions blank_breadcrumb_options ]>
  (<[ 14%positive := OBlogPost http_named_post ]>
  (<[ 15%positive := OBlogPost capitals_post ]> ∅))))))))))).

(** An options object that overrides all three values of the article
    generator, and a heap with the first example post and that object. *)
Definition press_article_options : ArticleSchemaOptions.t :=
  {| ArticleSchemaOptions.baseUrl := Some "https://press.example";
     ArticleSchemaOptions.publisherName := Some "Kana Press";
     ArticleSchemaOptions.publisherLogo :=
       Some "https://press.example/logo.svg" |}.

Definition press_heap : heap :=
  <[ 1%positive := OBlogPost intro_post ]>
  (<[ 2%positive := OArticleSchemaOptions press_article_options ]> ∅).

(** The updated post under another category, with other tags, reading
    time, difficulty, related posts, content and headings. *)
Definition retagged_post : BlogPost.t :=
  {| BlogPost.title := "Intro";
     BlogPost.description := "An introduction to kana";
     BlogPost.slug := "intro";
     BlogPost.publishedAt := "2024-01-01";
     BlogPost.updatedAt := Some "2024-02-03";
     BlogPost.author := "Jane";
     BlogPost.category := "katakana";
     BlogPost.tags := ["basics"; "writing"];
     BlogPost.featuredImage := Some "/blog/image1.jpg";
     BlogPost.readingTime := 12;
     BlogPost.difficulty := None;
     BlogPost.relatedPosts := Some ["katakana-basics"];
     BlogPost.locale := "en";
     BlogPost.content := "other text";
     BlogPost.headings := [] |}.

Definition retagged_heap : heap :=
  {[ 20%positive := OBlogPost retagged_post ]}.

(* ===================================================================== *)
(** ** Rules for runs *)
(* ===================================================================== *)

Section wp_rules.
Context {A B : Type}.
Implicit Types (σ : heap) (l : loc).

Lemma wp_ret (a : A) σ (Q : A → heap → Prop) : Q a σ → wp (ret a) σ Q.
Proof. done. Qed.

Lemma wp_bind (m : M A) (k : A → M B) σ (Q : B → heap → Prop) :
  wp m σ (λ a σ', wp (k a) σ' Q) → wp (bind m k) σ Q.
Proof.
  unfold wp, bind. destruct (m σ) as [[a σ']|]; done.
Qed.

Lemma wp_run (m : M A) σ (Q : A → heap → Prop) :
  wp m σ Q → ∃ a σ', m σ = Some (a, σ') ∧ Q a σ'.
Proof.
  unfold wp. destruct (m σ) as [[a σ']|]; [eauto | done].
Qed.

Lemma wp_get_post l (f : BlogPost.t → A) p σ (Q : A → heap → Prop) :
  σ !! l = Some (OBlogPost p) → Q (f p) σ → wp (get_post l f) σ Q.
Proof. unfold wp, get_post. by intros ->. Qed.

Lemma wp_get_article_options l (f : ArticleSchemaOptions.t → A) o σ
    (Q : A → heap → Prop) :
  σ !! l = Some (OArticleSchemaOptions o) → Q (f o) σ →
  wp (get_article_options l f) σ Q.
Proof. unfold wp, get_article_options. by intros ->. Qed.

Lemma wp_get_breadcrumb_options l (f : BreadcrumbSchemaOptions.t → A) o σ
    (Q : A → heap → Prop) :
  σ !! l = Some (OBreadcrumbSchemaOptions o) → Q (f o) σ →
  wp (get_breadcrumb_options l f) σ Q.
Proof. unfold wp, get_breadcrumb_options. by intros ->. Qed.
End wp_rules.

Lemma wp_alloc (o : object) (σ : heap) (Q : loc → heap → Prop) :
  (∀ l, σ !! l = None → Q l (<[l := o]> σ)) → wp (alloc o) σ Q.
Proof.
  intros HQ. unfold wp, alloc. apply HQ.
  apply not_elem_of_dom, is_fresh.
Qed.

Lemma wp_update_article (l : loc) f s (σ : heap) (Q : unit → heap → Prop) :
  σ !! l = Some (OArticleSchema s) →
  Q tt (<[l := OArticleSchema (f s)]> σ) →
  wp (update_article l f) σ Q.
Proof. unfold wp, update_article. by intros ->. Qed.

(** A cell that is read survives the allocation of another one. *)
Lemma lookup_alloc (σ : heap) (l r : loc) (x o : object) :
  σ !! l = Some x → σ !! r = None → <[r := o]> σ !! l = Some x.
Proof.
  intros Hl Hr. rewrite lookup_insert_ne; [done | congruence].
Qed.

(** One step of a run: sequencing, a property read of a known object, an
    allocation (after which every known cell is still known), a return. *)
Ltac wp_alloc_step :=
  lazymatch goal with
  | |- wp (alloc ?o) ?σ _ =>
      let l := fresh "l" in
      let Hl := fresh "Hl" in
      apply wp_alloc; intros l Hl;
      assert (<[l := o]> σ !! l = Some o) by apply lookup_insert_eq;
      repeat match goal with
             | H : σ !! ?x = Some ?y |- _ =>
                 lazymatch goal with
                 | _ : <[l := o]> σ !! x = Some y |- _ => fail
                 | _ => pose proof (lookup_alloc σ x l y o H Hl)
                 end
             end
  end.

Ltac wp_step :=
  lazymatch goal with
  | |- wp (bind _ _) _ _ => apply wp_bind
  | |- wp (get_post _ _) _ _ => eapply wp_get_post; [eassumption |]
  | |- wp (get_article_options _ _) _ _ =>
      eapply wp_get_article_options; [eassumption |]
  | |- wp (get_breadcrumb_options _ _) _ _ =>
      eapply wp_get_breadcrumb_options; [eassumption |]
  | |- wp (alloc _) _ _ => wp_alloc_step
  | |- wp (ret _) _ _ => apply wp_ret
  end.

Lemma only_allocates_1 (σ : heap) (r : loc) (x : object) :
  σ !! r = None → only_allocates σ (<[r := x]> σ) r.
Proof. intros Hr. split; [by apply insert_subseteq | done]. Qed.

Lemma only_allocates_2 (σ : heap) (l r : loc) (x y : object) :
  σ !! l = None → <[l := x]> σ !! r = None →
  only_allocates σ (<[r := y]> (<[l := x]> σ)) r.
Proof.
  intros Hl Hr. split.
  - trans (<[l := x]> σ); by apply insert_subseteq.
  - by apply lookup_insert_None in Hr as [? _].
Qed.

Lemma generateBreadcrumbSchema_wp σ post options p o :
  σ !! post = Some (OBlogPost p) →
  breadcrumb_options_at σ options o →
  wp (generateBreadcrumbSchema post options) σ (λ r σ',
    σ' !! r = Some (OBreadcrumbSchema (breadcrumb_of p o)) ∧
    only_allocates σ σ' r).
Proof.
  intros Hp Ho. unfold generateBreadcrumbSchema, default_param.
  destruct options as [lo|]; simpl in Ho; subst; repeat wp_step.
  - split; [done | by apply only_allocates_1].
  - split; [done | by apply only_allocates_2].
Qed.

Ltac wp_update_step :=
  lazymatch goal with
  | |- wp (update_article ?r _) (<[?r := ?o]> ?σ) _ =>
      eapply wp_update_article; [eassumption |];
      rewrite (insert_insert_eq σ r);
      lazymatch goal with
      | Hr : σ !! r = None |- context [<[r := ?o']> σ] =>
          assert (<[r := o']> σ !! r = Some o') by apply lookup_insert_eq;
          repeat match goal with
                 | H : σ !! ?x = Some ?y |- _ =>
                     lazymatch goal with
                     | _ : <[r := o']> σ !! x = Some y |- _ => fail
                     | _ => pose proof (lookup_alloc σ x r y o' H Hr)
                     end
                 end
      end
  end.

Ltac wp_case :=
  lazymatch goal with
  | |- wp (if ?b then _ else _) _ _ => destruct b eqn:?
  | |- wp (match ?x with Some _ => _ | None => _ end) _ _ => destruct x eqn:?
  end.

Lemma generateArticleSchema_wp σ post options p o :
  σ !! post = Some (OBlogPost p) →
  article_options_at σ options o →
  wp (generateArticleSchema post options) σ (λ r σ',
    σ' !! r = Some (OArticleSchema (article_of p o)) ∧
    only_allocates σ σ' r).
Proof.
  intros Hp Ho. unfold generateArticleSchema, default_param.
  destruct p as [ti de sl pa [[|c1 u]|] au ca ta [[|c2 f]|] rt di rp lc co he];
    (destruct options as [lo|]; simpl in Ho; subst);
    repeat (first [wp_step | wp_update_step | wp_case];
            cbn [BlogPost.updatedAt BlogPost.featuredImage truthy]).
  all: split;
    [ unfold article_of, dateModified_of, image_of;
      cbn [BlogPost.updatedAt BlogPost.featuredImage truthy];
      repeat match goal with
             | H : startsWith _ _ = _ |- _ => rewrite H; clear H
             end;
      done
    | first [by apply only_allocates_1 | by apply only_allocates_2] ].
Qed.

(** The two generators return, and what they return. *)
Lemma generateArticleSchema_run σ post options p o :
  σ !! post = Some (OBlogPost p) →
  article_options_at σ options o →
  ∃ r σ', generateArticleSchema post options σ = Some (r, σ') ∧
          σ' !! r = Some (OArticleSchema (article_of p o)) ∧
          only_allocates σ σ' r.
Proof.
  intros Hp Ho.
  destruct (wp_run _ _ _ (generateArticleSchema_wp σ post options p o Hp Ho))
    as (r & σ' & Hrun & HQ).
  by exists r, σ'.
Qed.

Lemma generateBreadcrumbSchema_run σ post options p o :
  σ !! post = Some (OBlogPost p) →
  breadcrumb_options_at σ options o →
  ∃ r σ', generateBreadcrumbSchema post options σ = Some (r, σ') ∧
          σ' !! r = Some (OBreadcrumbSchema (breadcrumb_of p o)) ∧
          only_allocates σ σ' r.
Proof.
  intros Hp Ho.
  destruct (wp_run _ _ _ (generateBreadcrumbSchema_wp σ post options p o Hp Ho))
    as (r & σ' & Hrun & HQ).
  by exists r, σ'.
Qed.

Lemma generateArticleSchema_returned σ post options p o :
  σ !! post = Some (OBlogPost p) →
  article_options_at σ options o →
  returned (generateArticleSchema post options) σ =
  Some (OArticleSchema (article_of p o)).
Proof.
  intros Hp Ho.
  destruct (generateArticleSchema_run σ post options p o Hp Ho)
    as (r & σ' & Hrun & Hr & _).
  unfold returned. by rewrite Hrun.
Qed.

Lemma generateBreadcrumbSchema_returned σ post options p o :
  σ !! post = Some (OBlogPost p) →
  breadcrumb_options_at σ options o →
  returned (generateBreadcrumbSchema post options) σ =
  Some (OBreadcrumbSchema (breadcrumb_of p o)).
Proof.
  intros Hp Ho.
  destruct (generateBreadcrumbSchema_run σ post options p o Hp Ho)
    as (r & σ' & Hrun & Hr & _).
  unfold returned. by rewrite Hrun.
Qed.

Lemma truthy_spec (v : option string) :
  truthy v = true ↔ ∃ u, v = Some u ∧ u ≠ "".
Proof.
  destruct v as [[|c u]|]; simpl; split.
  - done.
  - by intros (u & [= <-] & Hu).
  - intros _. by eexists.
  - done.
  - done.
  - by intros (u & [=] & _).
Qed.

Lemma truthy_Some (u : string) : u ≠ "" → truthy (Some u) = true.
Proof. intros Hu. apply truthy_spec. by exists u. Qed.

(* ===================================================================== *)
(** ** The generators on the example inputs *)
(* ===================================================================== *)

Example intro_article :
  returned (generateArticleSchema 1 None) intro_heap =
  Some (OArticleSchema {|
    ArticleSchema.context := "https://schema.org";
    ArticleSchema.type := "Article";
    ArticleSchema.headline := "Intro";
    ArticleSchema.description := "d";
    ArticleSchema.datePublished := "2024-01-01";
    ArticleSchema.dateModified := None;
    ArticleSchema.author := {| Person.type := "Person"; Person.name := "Jane" |};
    ArticleSchema.publisher :=
      {| Organization.type := "Organization";
         Organization.name := "KanaDojo";
         Organization.logo :=
           Some {| ImageObject.type := "ImageObject";
                   ImageObject.url := "https://kanadojo.com/logo.png" |} |};
    ArticleSchema.mainEntityOfPage := "https://kanadojo.com/en/blog/intro";
    ArticleSchema.image := None |}).
Proof. vm_compute. reflexivity. Qed.

Example updated_article_image :
  ∃ s, returned (generateArticleSchema 2 (Some 4%positive)) site_heap
       = Some (OArticleSchema s) ∧
       ArticleSchema.image s = Some "https://staging.example/blog/image1.jpg" ∧
       ArticleSchema.dateModified s = Some "2024-02-03".
Proof. eexists. split; [vm_compute; reflexivity | done]. Qed.

Example cdn_article_image :
  ∃ s, returned (generateArticleSchema 6 None) cdn_heap
       = Some (OArticleSchema s) ∧
       ArticleSchema.image s = Some "https://cdn.example/kana.png" ∧
       ArticleSchema.dateModified s = None ∧
       ArticleSchema.mainEntityOfPage s
       = "https://kanadojo.com/ja/blog/katakana-basics".
Proof. eexists. split; [vm_compute; reflexivity | done]. Qed.

Example intro_breadcrumb_third :
  ∃ s, returned (generateBreadcrumbSchema 1 None) site_heap
       = Some (OBreadcrumbSchema s) ∧
       BreadcrumbSchema.itemListElement s !! 2%nat =
       Some {| BreadcrumbListItem.type := "ListItem";
               BreadcrumbListItem.position := 3;
               BreadcrumbListItem.name := "Intro";
               BreadcrumbListItem.item := "https://kanadojo.com/en/blog/intro" |}.
Proof. eexists. split; [vm_compute; reflexivity | done]. Qed.

(* ===================================================================== *)
(** ** Properties of generateArticleSchema *)
(* ===================================================================== *)

Section article.
Context (σ : heap) (post : loc) (options : option loc).
Context (p : BlogPost.t) (o : ArticleSchemaOptions.t).
Context (Hpost : σ !! post = Some (OBlogPost p)).
Context (Hoptions : article_options_at σ options o).

(** C1, as the code has it.  The guard [if (post.updatedAt)] tests
    truthiness, so the call returns, and the returned schema has a
    [dateModified] exactly when [post.updatedAt] is present and is not the
    empty string; when [dateModified] is present it equals
    [post.updatedAt]; in every other case the field is absent. *)
Theorem dateModified_iff_updatedAt_nonempty :
  ∃ s, returned (generateArticleSchema post options) σ
       = Some (OArticleSchema s) ∧
    (is_Some (ArticleSchema.dateModified s) ↔
     ∃ u, BlogPost.updatedAt p = Some u ∧ u ≠ "") ∧
    (is_Some (ArticleSchema.dateModified s) →
     ArticleSchema.dateModified s = BlogPost.updatedAt p) ∧
    (BlogPost.updatedAt p = None ∨ BlogPost.updatedAt p = Some "" →
     ArticleSchema.dateModified s = None).
Proof.
  exists (article_of p o).
  split; [by apply generateArticleSchema_returned |].
  cbn [article_of ArticleSchema.dateModified]. unfold dateModified_of.
  destruct (BlogPost.updatedAt p) as [[|c u]|]; cbn [truthy].
  - split_and!; [| by intros [] | done].
    split; [by intros [] | by intros (u & [= <-] & Hu)].
  - split_and!; [| done | by intros [|]].
    split; [intros _; by eexists | by eexists].
  - split_and!; [| by intros [] | done].
    split; [by intros [] | by intros (u & [=] & _)].
Qed.


(** C3.  The call returns a schema whose ['@context'] is
    "https://schema.org", whose ['@type'] is "Article", whose headline,
    description and datePublished are the post's title, description and
    publishedAt, whose author is the Person named [post.author], and whose
    publisher is the Organization named [publisherName] with the ImageObject
    logo at [publisherLogo]: the overrides [options.publisherName] and
    [options.publisherLogo] where they are given, "KanaDojo" and
    "https://kanadojo.com/logo.png" where they are not. *)
Theorem article_required_fields :
  ∃ s, returned (generateArticleSchema post options) σ
       = Some (OArticleSchema s) ∧
    ArticleSchema.context s = "https://schema.org" ∧
    ArticleSchema.type s = "Article" ∧
    ArticleSchema.headline s = BlogPost.title p ∧
    ArticleSchema.description s = BlogPost.description p ∧
    ArticleSchema.datePublished s = BlogPost.publishedAt p ∧
    ArticleSchema.author s =
      {| Person.type := "Person"; Person.name := BlogPost.author p |} ∧
    ArticleSchema.publisher s =
      {| Organization.type := "Organization";
         Organization.name :=
           match ArticleSchemaOptions.publisherName o with
           | Some name => name
           | None => "KanaDojo"
           end;
         Organization.logo :=
           Some {| ImageObject.type := "ImageObject";
                   ImageObject.url :=
                     match ArticleSchemaOptions.publisherLogo o with
                     | Some logo => logo
                     | None => "https://kanadojo.com/logo.png"
                     end |}
      |}.
Proof.
  exists (article_of p o).
  split; [by apply generateArticleSchema_returned |].
  split_and!; [done.. |].
  cbn [article_of ArticleSchema.publisher]. unfold nullish.
  by destruct (ArticleSchemaOptions.publisherName o),
              (ArticleSchemaOptions.publisherLogo o).
Qed.

(** C4.  The call returns a schema whose [mainEntityOfPage] is
    [baseUrl + "/" + post.locale + "/blog/" + post.slug], [baseUrl] being
    the override [options.baseUrl] where one is given and
    "https://kanadojo.com" where not.  In particular, for the post of locale
    "en" and slug "intro" and no options it is
    "https://kanadojo.com/en/blog/intro" (the other fields of the example
    post play no part). *)
Theorem article_mainEntityOfPage :
  ∃ s, returned (generateArticleSchema post options) σ
       = Some (OArticleSchema s) ∧
    ArticleSchema.mainEntityOfPage s =
      match ArticleSchemaOptions.baseUrl o with
      | Some baseUrl => baseUrl
      | None => "https://kanadojo.com"
      end +:+ "/" +:+ BlogPost.locale p +:+ "/blog/" +:+ BlogPost.slug p ∧
    (options = None → BlogPost.locale p = "en" → BlogPost.slug p = "intro" →
     ArticleSchema.mainEntityOfPage s = "https://kanadojo.com/en/blog/intro").
Proof.
  exists (article_of p o).
  split; [by apply generateArticleSchema_returned |].
  split.
  - cbn [article_of ArticleSchema.mainEntityOfPage]. unfold nullish.
    by destruct (ArticleSchemaOptions.baseUrl o).
  - intros -> Hl Hs. cbn in Hoptions. subst o.
    cbn [article_of ArticleSchema.mainEntityOfPage]. by rewrite Hl, Hs.
Qed.

(** C9.  The publisher of the returned schema always has its logo: the
    ImageObject whose url is [options.publisherLogo ?? PUBLISHER_LOGO],
    that is the override when one is given and
    "https://kanadojo.com/logo.png" otherwise. *)
Theorem publisher_logo_always_present :
  ∃ s, returned (generateArticleSchema post options) σ
       = Some (OArticleSchema s) ∧
    Organization.logo (ArticleSchema.publisher s) =
      Some {| ImageObject.type := "ImageObject";
              ImageObject.url :=
                match ArticleSchemaOptions.publisherLogo o with
                | Some logo => logo
                | None => "https://kanadojo.com/logo.png"
                end |} ∧
    Organization.logo (ArticleSchema.publisher s) ≠ None.
Proof.
  exists (article_of p o).
  split; [by apply generateArticleSchema_returned |].
  by split.
Qed.

End article.

(* ===================================================================== *)
(** ** Properties of generateBreadcrumbSchema *)
(* ===================================================================== *)


(** C10.  Of the post, the breadcrumb schema depends on locale, slug and
    title only: for two posts that agree on these three fields, whatever
    their other fields, and the same options, the two calls return
    structurally equal schemas. *)
Theorem breadcrumb_depends_on_locale_slug_title
    (σ1 σ2 : heap) (post1 post2 : loc) (options1 options2 : option loc)
    (p1 p2 : BlogPost.t) (o : BreadcrumbSchemaOptions.t) :
  σ1 !! post1 = Some (OBlogPost p1) →
  σ2 !! post2 = Some (OBlogPost p2) →
  breadcrumb_options_at σ1 options1 o →
  breadcrumb_options_at σ2 options2 o →
  BlogPost.locale p1 = BlogPost.locale p2 →
  BlogPost.slug p1 = BlogPost.slug p2 →
  BlogPost.title p1 = BlogPost.title p2 →
  ∃ s, returned (generateBreadcrumbSchema post1 options1) σ1
       = Some (OBreadcrumbSchema s) ∧
       returned (generateBreadcrumbSchema post2 options2) σ2
       = Some (OBreadcrumbSchema s).
Proof.
  intros Hp1 Hp2 Ho1 Ho2 Hlocale Hslug Htitle.
  exists (breadcrumb_of p1 o). split.
  - by apply generateBreadcrumbSchema_returned.
  - rewrite (generateBreadcrumbSchema_returned σ2 post2 options2 p2 o)
      by done.
    unfold breadcrumb_of. by rewrite Hlocale, Hslug, Htitle.
Qed.

(* ===================================================================== *)
(** ** Properties of both generators *)
(* ===================================================================== *)

(** C6.  Defaults and overrides.  [generateArticleSchema] uses
    "https://kanadojo.com", "KanaDojo" and "https://kanadojo.com/logo.png"
    for [baseUrl], [publisherName] and [publisherLogo], and
    [generateBreadcrumbSchema] uses "https://kanadojo.com", "Home" and
    "Blog" for [baseUrl], [homeLabel] and [blogLabel], each when the options
    argument is absent or the override in it is undefined; an override that
    is supplied is the value used in the output. *)
Theorem defaults_and_overrides (σ : heap) (post : loc)
    (aoptions boptions : option loc) (p : BlogPost.t)
    (ao : ArticleSchemaOptions.t) (bo : BreadcrumbSchemaOptions.t) :
  σ !! post = Some (OBlogPost p) →
  article_options_at σ aoptions ao →
  breadcrumb_options_at σ boptions bo →
  (∃ s baseUrl publisherName publisherLogo,
     returned (generateArticleSchema post aoptions) σ
       = Some (OArticleSchema s) ∧
     override_or_default (ArticleSchemaOptions.baseUrl ao)
       "https://kanadojo.com" baseUrl ∧
     override_or_default (ArticleSchemaOptions.publisherName ao)
       "KanaDojo" publisherName ∧
     override_or_default (ArticleSchemaOptions.publisherLogo ao)
       "https://kanadojo.com/logo.png" publisherLogo ∧
     (aoptions = None →
      baseUrl = "https://kanadojo.com" ∧ publisherName = "KanaDojo" ∧
      publisherLogo = "https://kanadojo.com/logo.png") ∧
     ArticleSchema.mainEntityOfPage s =
       baseUrl +:+ "/" +:+ BlogPost.locale p +:+ "/blog/" +:+
       BlogPost.slug p ∧
     (∀ f, BlogPost.featuredImage p = Some f → f ≠ "" →
        startsWith f "http" = false →
        ArticleSchema.image s = Some (baseUrl +:+ f)) ∧
     Organization.name (ArticleSchema.publisher s) = publisherName ∧
     Organization.logo (ArticleSchema.publisher s) =
       Some {| ImageObject.type := "ImageObject";
               ImageObject.url := publisherLogo |}) ∧
  (∃ s baseUrl homeLabel blogLabel,
     returned (generateBreadcrumbSchema post boptions) σ
       = Some (OBreadcrumbSchema s) ∧
     override_or_default (BreadcrumbSchemaOptions.baseUrl bo)
       "https://kanadojo.com" baseUrl ∧
     override_or_default (BreadcrumbSchemaOptions.homeLabel bo)
       "Home" homeLabel ∧
     override_or_default (BreadcrumbSchemaOptions.blogLabel bo)
       "Blog" blogLabel ∧
     (boptions = None →
      baseUrl = "https://kanadojo.com" ∧ homeLabel = "Home" ∧
      blogLabel = "Blog") ∧
     BreadcrumbSchema.itemListElement s = [
       BreadcrumbListItem.mk "ListItem" 1 homeLabel
         (baseUrl +:+ "/" +:+ BlogPost.locale p);
       BreadcrumbListItem.mk "ListItem" 2 blogLabel
         (baseUrl +:+ "/" +:+ BlogPost.locale p +:+ "/blog");
       BreadcrumbListItem.mk "ListItem" 3 (BlogPost.title p)
         (baseUrl +:+ "/" +:+ BlogPost.locale p +:+ "/blog/" +:+
          BlogPost.slug p) ]).
Proof.
  intros Hpost Ha Hb. split.
  - exists (article_of p ao),
      (ArticleSchemaOptions.baseUrl ao ?? BASE_URL),
      (ArticleSchemaOptions.publisherName ao ?? PUBLISHER_NAME),
      (ArticleSchemaOptions.publisherLogo ao ?? PUBLISHER_LOGO).
    split; [by apply generateArticleSchema_returned |].
    split_and!; try done.
    + by destruct (ArticleSchemaOptions.baseUrl ao).
    + by destruct (ArticleSchemaOptions.publisherName ao).
    + by destruct (ArticleSchemaOptions.publisherLogo ao).
    + intros ->. cbn in Ha. by subst ao.
    + intros f Hf Hne Hs. cbn [article_of ArticleSchema.image].
      unfold image_of. rewrite Hf, (truthy_Some f Hne). by rewrite Hs.
  - exists (breadcrumb_of p bo),
      (BreadcrumbSchemaOptions.baseUrl bo ?? Breadcrumb.BASE_URL),
      (BreadcrumbSchemaOptions.homeLabel bo ?? "Home"),
      (BreadcrumbSchemaOptions.blogLabel bo ?? "Blog").
    split; [by apply generateBreadcrumbSchema_returned |].
    split_and!; try done.
    + by destruct (BreadcrumbSchemaOptions.baseUrl bo).
    + by destruct (BreadcrumbSchemaOptions.homeLabel bo).
    + by destruct (BreadcrumbSchemaOptions.blogLabel bo).
    + intros ->. cbn in Hb. by subst bo.
Qed.

(** C7.  Both generators are deterministic and free of side effects.  Two
    calls whose arguments have equal contents (in whatever heaps, at
    whatever addresses, the second possibly after the first) both return,
    and return structurally equal schemas; and each call leaves every
    object that existed before it as it was, its only trace on the heap
    being freshly allocated objects, the returned schema among them. *)
Theorem generators_deterministic_without_side_effects
    (σ1 σ2 : heap) (post1 post2 : loc)
    (aoptions1 aoptions2 boptions1 boptions2 : option loc)
    (p : BlogPost.t) (ao : ArticleSchemaOptions.t)
    (bo : BreadcrumbSchemaOptions.t) :
  σ1 !! post1 = Some (OBlogPost p) →
  σ2 !! post2 = Some (OBlogPost p) →
  article_options_at σ1 aoptions1 ao →
  article_options_at σ2 aoptions2 ao →
  breadcrumb_options_at σ1 boptions1 bo →
  breadcrumb_options_at σ2 boptions2 bo →
  (∃ r1 σ1' r2 σ2' s,
     generateArticleSchema post1 aoptions1 σ1 = Some (r1, σ1') ∧
     generateArticleSchema post2 aoptions2 σ2 = Some (r2, σ2') ∧
     σ1' !! r1 = Some (OArticleSchema s) ∧
     σ2' !! r2 = Some (OArticleSchema s) ∧
     (σ1 ⊆ σ1' ∧ σ1 !! r1 = None) ∧
     (σ2 ⊆ σ2' ∧ σ2 !! r2 = None)) ∧
  (∃ r1 σ1' r2 σ2' s,
     generateBreadcrumbSchema post1 boptions1 σ1 = Some (r1, σ1') ∧
     generateBreadcrumbSchema post2 boptions2 σ2 = Some (r2, σ2') ∧
     σ1' !! r1 = Some (OBreadcrumbSchema s) ∧
     σ2' !! r2 = Some (OBreadcrumbSchema s) ∧
     (σ1 ⊆ σ1' ∧ σ1 !! r1 = None) ∧
     (σ2 ⊆ σ2' ∧ σ2 !! r2 = None)).
Proof.
  intros Hp1 Hp2 Ha1 Ha2 Hb1 Hb2. split.
  - destruct (generateArticleSchema_run σ1 post1 aoptions1 p ao Hp1 Ha1)
      as (r1 & σ1' & Hrun1 & Hr1 & Hfr1).
    destruct (generateArticleSchema_run σ2 post2 aoptions2 p ao Hp2 Ha2)
      as (r2 & σ2' & Hrun2 & Hr2 & Hfr2).
    by exists r1, σ1', r2, σ2', (article_of p ao).
  - destruct (generateBreadcrumbSchema_run σ1 post1 boptions1 p bo Hp1 Hb1)
      as (r1 & σ1' & Hrun1 & Hr1 & Hfr1).
    destruct (generateBreadcrumbSchema_run σ2 post2 boptions2 p bo Hp2 Hb2)
      as (r2 & σ2' & Hrun2 & Hr2 & Hfr2).
    by exists r1, σ1', r2, σ2', (breadcrumb_of p bo).
Qed.

(** C8.  Neither generator mutates the post: in the heap a call leaves,
    the reference of the post still holds the post with every field as it
    was before the call. *)
Theorem generators_leave_post_unchanged (σ : heap) (post : loc)
    (aoptions boptions : option loc) (p : BlogPost.t)
    (ao : ArticleSchemaOptions.t) (bo : BreadcrumbSchemaOptions.t) :
  σ !! post = Some (OBlogPost p) →
  article_options_at σ aoptions ao →
  breadcrumb_options_at σ boptions bo →
  (∃ r σ', generateArticleSchema post aoptions σ = Some (r, σ') ∧
           σ' !! post = Some (OBlogPost p)) ∧
  (∃ r σ', generateBreadcrumbSchema post boptions σ = Some (r, σ') ∧
           σ' !! post = Some (OBlogPost p)).
Proof.
  intros Hpost Ha Hb. split.
  - destruct (generateArticleSchema_run σ post aoptions p ao Hpost Ha)
      as (r & σ' & Hrun & _ & Hsub & _).
    exists r, σ'. split; [done |]. by eapply lookup_weaken.
  - destruct (generateBreadcrumbSchema_run σ post boptions p bo Hpost Hb)
      as (r & σ' & Hrun & _ & Hsub & _).
    exists r, σ'. split; [done |]. by eapply lookup_weaken.
Qed.

(** Calling [generateArticleSchema] twice in a row on the same arguments
    gives two distinct objects with the same contents, and the first one is
    not touched by the second call. *)
Corollary generateArticleSchema_twice (σ : heap) (post options : loc)
    (p : BlogPost.t) (o : ArticleSchemaOptions.t) :
  σ !! post = Some (OBlogPost p) →
  σ !! options = Some (OArticleSchemaOptions o) →
  ∃ r1 r2 σ'',
    bind (generateArticleSchema post (Some options))
      (λ r1, bind (generateArticleSchema post (Some options))
               (λ r2, ret (r1, r2))) σ = Some ((r1, r2), σ'') ∧
    r1 ≠ r2 ∧
    σ'' !! r1 = Some (OArticleSchema (article_of p o)) ∧
    σ'' !! r2 = Some (OArticleSchema (article_of p o)).
Proof.
  intros Hp Ho.
  destruct (generateArticleSchema_run σ post (Some options) p o Hp Ho)
    as (r1 & σ' & Hrun1 & Hr1 & Hsub1 & Hnew1).
  assert (Hp' : σ' !! post = Some (OBlogPost p)) by by eapply lookup_weaken.
  assert (Ho' : article_options_at σ' (Some options) o)
    by by eapply lookup_weaken.
  destruct (generateArticleSchema_run σ' post (Some options) p o Hp' Ho')
    as (r2 & σ'' & Hrun2 & Hr2 & Hsub2 & Hnew2).
  exists r1, r2, σ''. unfold bind, ret. rewrite Hrun1, Hrun2.
  split_and!; [done | congruence | by eapply lookup_weaken | done].
Qed.

(* ===================================================================== *)
(** ** Where the presence claims fail as stated *)
(* ===================================================================== *)

(** C1 as stated fails: the post at reference 3 has [updatedAt] present,
    as the empty string, and the returned schema has no [dateModified]. *)
Lemma dateModified_absent_for_empty_updatedAt :
  site_heap !! 3%positive = Some (OBlogPost blank_post) ∧
  ∃ s, returned (generateArticleSchema 3 None) site_heap
       = Some (OArticleSchema s) ∧
    ¬ (is_Some (ArticleSchema.dateModified s) ↔
       is_Some (BlogPost.updatedAt blank_post)).
Proof.
  split; [reflexivity |].
  eexists. split; [vm_compute; reflexivity |].
  cbn. intros [_ H]. destruct H as [d Hd]; [by eexists | discriminate].
Qed.


(* ===================================================================== *)
(** ** The properties at the example inputs *)
(* ===================================================================== *)

Lemma dateModified_iff_updatedAt_nonempty_witness :
  site_heap !! 2%positive = Some (OBlogPost updated_post) ∧
  article_options_at site_heap (Some 4%positive) staging_article_options ∧
  ∃ s, returned (generateArticleSchema 2 (Some 4%positive)) site_heap
       = Some (OArticleSchema s) ∧
       ArticleSchema.dateModified s = Some "2024-02-03".
Proof.
  assert (H1 : site_heap !! 2%positive = Some (OBlogPost updated_post))
    by reflexivity.
  assert (H2 : article_options_at site_heap (Some 4%positive)
                 staging_article_options) by reflexivity.
  split; [exact H1 |]. split; [exact H2 |].
  destruct (dateModified_iff_updatedAt_nonempty site_heap 2 (Some 4%positive)
              updated_post staging_article_options H1 H2)
    as (s & Hs & Hiff & Heq & _).
  exists s. split; [exact Hs |].
  rewrite Heq; [reflexivity |].
  apply Hiff. exists "2024-02-03". split; [reflexivity | discriminate].
Defined.


Lemma article_required_fields_witness :
  press_heap !! 1%positive = Some (OBlogPost intro_post) ∧
  article_options_at press_heap (Some 2%positive) press_article_options ∧
  ∃ s, returned (generateArticleSchema 1 (Some 2%positive)) press_heap
       = Some (OArticleSchema s) ∧
       ArticleSchema.context s = "https://schema.org" ∧
       ArticleSchema.type s = "Article" ∧
       ArticleSchema.headline s = "Intro" ∧
       ArticleSchema.description s = "d" ∧
       ArticleSchema.datePublished s = "2024-01-01" ∧
       ArticleSchema.author s = Person.mk "Person" "Jane" ∧
       ArticleSchema.publisher s =
         Organization.mk "Organization" "Kana Press"
           (Some (ImageObject.mk "ImageObject"
                    "https://press.example/logo.svg")).
Proof.
  assert (H1 : press_heap !! 1%positive = Some (OBlogPost intro_post))
    by reflexivity.
  assert (H2 : article_options_at press_heap (Some 2%positive)
                 press_article_options) by reflexivity.
  split; [exact H1 |]. split; [exact H2 |].
  exact (article_required_fields press_heap 1 (Some 2%positive) intro_post
           press_article_options H1 H2).
Defined.

Lemma article_mainEntityOfPage_witness :
  press_heap !! 1%positive = Some (OBlogPost intro_post) ∧
  article_options_at press_heap (Some 2%positive) press_article_options ∧
  intro_heap !! 1%positive = Some (OBlogPost intro_post) ∧
  article_options_at intro_heap None ArticleSchemaOptions.empty ∧
  (∃ s, returned (generateArticleSchema 1 (Some 2%positive)) press_heap
        = Some (OArticleSchema s) ∧
        ArticleSchema.mainEntityOfPage s
        = "https://press.example/en/blog/intro") ∧
  (∃ s, returned (generateArticleSchema 1 None) intro_heap
        = Some (OArticleSchema s) ∧
        ArticleSchema.mainEntityOfPage s
        = "https://kanadojo.com/en/blog/intro").
Proof.
  assert (H1 : press_heap !! 1%positive = Some (OBlogPost intro_post))
    by reflexivity.
  assert (H2 : article_options_at press_heap (Some 2%positive)
                 press_article_options) by reflexivity.
  assert (H3 : intro_heap !! 1%positive = Some (OBlogPost intro_post))
    by reflexivity.
  assert (H4 : article_options_at intro_heap None ArticleSchemaOptions.empty)
    by reflexivity.
  split; [exact H1 |]. split; [exact H2 |].
  split; [exact H3 |]. split; [exact H4 |].
  split.
  - destruct (article_mainEntityOfPage press_heap 1 (Some 2%positive)
                intro_post press_article_options H1 H2)
      as (s & Hs & Hm & _).
    exists s. split; [exact Hs | exact Hm].
  - destruct (article_mainEntityOfPage intro_heap 1 None intro_post
                ArticleSchemaOptions.empty H3 H4)
      as (s & Hs & _ & Hex).
    exists s. split; [exact Hs |]. apply Hex; reflexivity.
Defined.

Lemma publisher_logo_always_present_witness :
  site_heap !! 1%positive = Some (OBlogPost intro_post) ∧
  article_options_at site_heap (Some 4%positive) staging_article_options ∧
  ∃ s, returned (generateArticleSchema 1 (Some 4%positive)) site_heap
       = Some (OArticleSchema s) ∧
       Organization.logo (ArticleSchema.publisher s) =
       Some (ImageObject.mk "ImageObject" "https://staging.example/l.png").
Proof.
  assert (H1 : site_heap !! 1%positive = Some (OBlogPost intro_post))
    by reflexivity.
  assert (H2 : article_options_at site_heap (Some 4%positive)
                 staging_article_options) by reflexivity.
  split; [exact H1 |]. split; [exact H2 |].
  destruct (publisher_logo_always_present site_heap 1 (Some 4%positive)
              intro_post staging_article_options H1 H2)
    as (s & Hs & Hlogo & _).
  exists s. split; [exact Hs | exact Hlogo].
Defined.


Lemma breadcrumb_depends_on_locale_slug_title_witness :
  site_heap !! 1%positive = Some (OBlogPost intro_post) ∧
  mirror_heap !! 7%positive = Some (OBlogPost updated_post) ∧
  intro_post ≠ updated_post ∧
  ∃ s, returned (generateBreadcrumbSchema 1 (Some 5%positive)) site_heap
       = Some (OBreadcrumbSchema s) ∧
       returned (generateBreadcrumbSchema 7 (Some 8%positive)) mirror_heap
       = Some (OBreadcrumbSchema s).
Proof.
  assert (H1 : site_heap !! 1%positive = Some (OBlogPost intro_post))
    by reflexivity.
  assert (H2 : mirror_heap !! 7%positive = Some (OBlogPost updated_post))
    by reflexivity.
  split; [exact H1 |]. split; [exact H2 |]. split; [discriminate |].
  apply (breadcrumb_depends_on_locale_slug_title site_heap mirror_heap 1 7
           (Some 5%positive) (Some 8%positive) intro_post updated_post
           staging_breadcrumb_options); reflexivity.
Defined.

Lemma defaults_and_overrides_witness :
  site_heap !! 2%positive = Some (OBlogPost updated_post) ∧
  article_options_at site_heap (Some 4%positive) staging_article_options ∧
  breadcrumb_options_at site_heap None BreadcrumbSchemaOptions.empty ∧
  (∃ s, returned (generateArticleSchema 2 (Some 4%positive)) site_heap
        = Some (OArticleSchema s) ∧
        ArticleSchema.mainEntityOfPage s
        = "https://staging.example/en/blog/intro" ∧
        Organization.name (ArticleSchema.publisher s) = "KanaDojo") ∧
  (∃ s, returned (generateBreadcrumbSchema 2 None) site_heap
        = Some (OBreadcrumbSchema s) ∧
        BreadcrumbSchema.itemListElement s = [
          BreadcrumbListItem.mk "ListItem" 1 "Home" "https://kanadojo.com/en";
          BreadcrumbListItem.mk "ListItem" 2 "Blog"
            "https://kanadojo.com/en/blog";
          BreadcrumbListItem.mk "ListItem" 3 "Intro"
            "https://kanadojo.com/en/blog/intro" ]).
Proof.
  assert (H1 : site_heap !! 2%positive = Some (OBlogPost updated_post))
    by reflexivity.
  assert (H2 : article_options_at site_heap (Some 4%positive)
                 staging_article_options) by reflexivity.
  assert (H3 : breadcrumb_options_at site_heap None
                 BreadcrumbSchemaOptions.empty) by reflexivity.
  split; [exact H1 |]. split; [exact H2 |]. split; [exact H3 |].
  destruct (defaults_and_overrides site_heap 2 (Some 4%positive) None
              updated_post staging_article_options
              BreadcrumbSchemaOptions.empty H1 H2 H3)
    as [(a & baseUrl & publisherName & publisherLogo & Ha & Hb & Hn & _ & _
           & Hm & _ & Hpn & _)
        (b & baseUrl' & homeLabel & blogLabel & Hb' & _ & _ & _ & Hdef & Hit)].
  split.
  - exists a. split; [exact Ha |].
    cbn in Hb, Hn. rewrite Hm, Hpn, Hb, Hn. split; reflexivity.
  - exists b. split; [exact Hb' |].
    destruct (Hdef eq_refl) as (-> & -> & ->). exact Hit.
Defined.

Lemma generators_deterministic_without_side_effects_witness :
  site_heap !! 2%positive = Some (OBlogPost updated_post) ∧
  mirror_heap !! 7%positive = Some (OBlogPost updated_post) ∧
  (∃ r1 σ1' r2 σ2' s,
     generateArticleSchema 2 (Some 4%positive) site_heap = Some (r1, σ1') ∧
     generateArticleSchema 7 (Some 9%positive) mirror_heap = Some (r2, σ2') ∧
     σ1' !! r1 = Some (OArticleSchema s) ∧
     σ2' !! r2 = Some (OArticleSchema s) ∧
     site_heap ⊆ σ1' ∧ mirror_heap ⊆ σ2') ∧
  (∃ r1 σ1' r2 σ2' s,
     generateBreadcrumbSchema 2 (Some 5%positive) site_heap = Some (r1, σ1') ∧
     generateBreadcrumbSchema 7 (Some 8%positive) mirror_heap
       = Some (r2, σ2') ∧
     σ1' !! r1 = Some (OBreadcrumbSchema s) ∧
     σ2' !! r2 = Some (OBreadcrumbSchema s) ∧
     site_heap ⊆ σ1' ∧ mirror_heap ⊆ σ2').
Proof.
  assert (H1 : site_heap !! 2%positive = Some (OBlogPost updated_post))
    by reflexivity.
  assert (H2 : mirror_heap !! 7%positive = Some (OBlogPost updated_post))
    by reflexivity.
  split; [exact H1 |]. split; [exact H2 |].
  destruct (generators_deterministic_without_side_effects
              site_heap mirror_heap 2 7
              (Some 4%positive) (Some 9%positive)
              (Some 5%positive) (Some 8%positive)
              updated_post staging_article_options
              staging_breadcrumb_options
              H1 H2 eq_refl eq_refl eq_refl eq_refl)
    as [(r1 & σ1' & r2 & σ2' & s & Hr1 & Hr2 & Hs1 & Hs2 & [Hf1 _] & [Hf2 _])
        (q1 & τ1' & q2 & τ2' & b & Hq1 & Hq2 & Hb1 & Hb2 & [Hg1 _] & [Hg2 _])].
  split.
  - exists r1, σ1', r2, σ2', s. repeat split; assumption.
  - exists q1, τ1', q2, τ2', b. repeat split; assumption.
Defined.

Lemma generators_leave_post_unchanged_witness :
  site_heap !! 2%positive = Some (OBlogPost updated_post) ∧
  (∃ r σ', generateArticleSchema 2 (Some 4%positive) site_heap
           = Some (r, σ') ∧
           σ' !! 2%positive = Some (OBlogPost updated_post)) ∧
  (∃ r σ', generateBreadcrumbSchema 2 None site_heap = Some (r, σ') ∧
           σ' !! 2%positive = Some (OBlogPost updated_post)).
Proof.
  assert (H1 : site_heap !! 2%positive = Some (OBlogPost updated_post))
    by reflexivity.
  split; [exact H1 |].
  apply (generators_leave_post_unchanged site_heap 2 (Some 4%positive) None
           updated_post staging_article_options
           BreadcrumbSchemaOptions.empty H1); reflexivity.
Defined.

(* ===================================================================== *)
(** ** Strings *)
(* ===================================================================== *)

Lemma append_cons (c : Ascii.ascii) (s t : string) :
  String c s +:+ t = String c (s +:+ t).
Proof. reflexivity. Qed.

Lemma append_assoc (a b c : string) : (a +:+ b) +:+ c = a +:+ (b +:+ c).
Proof.
  induction a as [|x a IH]; [done |]. by rewrite !append_cons, IH.
Qed.

Lemma append_eq_empty (a b : string) : a +:+ b = "" → a = "" ∧ b = "".
Proof. by destruct a. Qed.

Lemma prefix_here (c : Ascii.ascii) (s t : string) :
  String.prefix (String c s) (String c t) = String.prefix s t.
Proof. cbn. by destruct (Ascii.ascii_dec c c). Qed.

Lemma prefix_other (c d : Ascii.ascii) (s t : string) :
  c ≠ d → String.prefix (String c s) (String d t) = false.
Proof. intros Hne. cbn. by destruct (Ascii.ascii_dec c d). Qed.

Lemma prefix_append (s w : string) : String.prefix s (s +:+ w) = true.
Proof.
  induction s as [|c s IH]; [by destruct w |].
  by rewrite append_cons, prefix_here.
Qed.

Lemma prefix_append_l (s b f : string) :
  String.prefix s b = true → String.prefix s (b +:+ f) = true.
Proof.
  revert b. induction s as [|c s IH]; intros b Hb.
  - by destruct (b +:+ f).
  - destruct b as [|d b]; [done |].
    destruct (decide (c = d)) as [<- | Hne].
    + rewrite prefix_here in Hb.
      rewrite append_cons, prefix_here. by apply IH.
    + by rewrite prefix_other in Hb.
Qed.

Lemma prefix_true_append (s t : string) :
  String.prefix s t = true → ∃ rest, t = s +:+ rest.
Proof.
  revert t. induction s as [|c s IH]; intros t Ht.
  - by exists t.
  - destruct t as [|d t]; [done |].
    destruct (decide (c = d)) as [<- | Hne].
    + rewrite prefix_here in Ht. destruct (IH t Ht) as [rest ->].
      exists rest. by rewrite append_cons.
    + by rewrite prefix_other in Ht.
Qed.



(* ===================================================================== *)
(** ** Further properties of the generators *)
(* ===================================================================== *)

(** X1.  The breadcrumb schema is a schema.org BreadcrumbList: the call
    returns a schema whose ['@context'] is "https://schema.org" and whose
    ['@type'] is "BreadcrumbList". *)
Theorem breadcrumb_context_and_type (σ : heap) (post : loc)
    (options : option loc) (p : BlogPost.t) (o : BreadcrumbSchemaOptions.t) :
  σ !! post = Some (OBlogPost p) →
  breadcrumb_options_at σ options o →
  ∃ s, returned (generateBreadcrumbSchema post options) σ
       = Some (OBreadcrumbSchema s) ∧
       BreadcrumbSchema.context s = "https://schema.org" ∧
       BreadcrumbSchema.type s = "BreadcrumbList".
Proof.
  intros Hpost Ho. exists (breadcrumb_of p o).
  split; [by apply generateBreadcrumbSchema_returned | done].
Qed.

(** X2.  An override that is the empty string is kept, not replaced by the
    default ([??], not [||]): with [baseUrl: ""] the URLs are site-relative
    ("/en/blog/intro"), and with empty labels, publisher name or logo the
    output carries the empty string. *)
Theorem empty_string_overrides_are_kept (σ : heap) (post aoptions boptions : loc)
    (p : BlogPost.t) (ao : ArticleSchemaOptions.t)
    (bo : BreadcrumbSchemaOptions.t) :
  σ !! post = Some (OBlogPost p) →
  σ !! aoptions = Some (OArticleSchemaOptions ao) →
  σ !! boptions = Some (OBreadcrumbSchemaOptions bo) →
  (∃ s, returned (generateArticleSchema post (Some aoptions)) σ
        = Some (OArticleSchema s) ∧
     (ArticleSchemaOptions.baseUrl ao = Some "" →
      ArticleSchema.mainEntityOfPage s =
        "/" +:+ BlogPost.locale p +:+ "/blog/" +:+ BlogPost.slug p) ∧
     (ArticleSchemaOptions.publisherName ao = Some "" →
      Organization.name (ArticleSchema.publisher s) = "") ∧
     (ArticleSchemaOptions.publisherLogo ao = Some "" →
      Organization.logo (ArticleSchema.publisher s) =
        Some {| ImageObject.type := "ImageObject"; ImageObject.url := "" |})) ∧
  (∃ s, returned (generateBreadcrumbSchema post (Some boptions)) σ
        = Some (OBreadcrumbSchema s) ∧
     (BreadcrumbSchemaOptions.baseUrl bo = Some "" →
      BreadcrumbListItem.item <$> BreadcrumbSchema.itemListElement s =
        [ "/" +:+ BlogPost.locale p;
          "/" +:+ BlogPost.locale p +:+ "/blog";
          "/" +:+ BlogPost.locale p +:+ "/blog/" +:+ BlogPost.slug p ]) ∧
     (BreadcrumbSchemaOptions.homeLabel bo = Some "" →
      BreadcrumbSchemaOptions.blogLabel bo = Some "" →
      BreadcrumbListItem.name <$> BreadcrumbSchema.itemListElement s =
        [ ""; ""; BlogPost.title p ])).
Proof.
  intros Hpost Ha Hb. split.
  - exists (article_of p ao).
    split; [by apply generateArticleSchema_returned |].
    cbn. split_and!; by intros ->.
  - exists (breadcrumb_of p bo).
    split; [by apply generateBreadcrumbSchema_returned |].
    cbn. split; [by intros -> | by intros -> ->].
Qed.

(** X3.  The two generators agree on the address of the post: when they are
    given the same base URL override (or none), the [item] of the last
    breadcrumb entry is the [mainEntityOfPage] of the article schema. *)
Theorem last_breadcrumb_is_mainEntityOfPage (σ : heap) (post : loc)
    (aoptions boptions : option loc) (p : BlogPost.t)
    (ao : ArticleSchemaOptions.t) (bo : BreadcrumbSchemaOptions.t) :
  σ !! post = Some (OBlogPost p) →
  article_options_at σ aoptions ao →
  breadcrumb_options_at σ boptions bo →
  ArticleSchemaOptions.baseUrl ao = BreadcrumbSchemaOptions.baseUrl bo →
  ∃ a b i,
    returned (generateArticleSchema post aoptions) σ
      = Some (OArticleSchema a) ∧
    returned (generateBreadcrumbSchema post boptions) σ
      = Some (OBreadcrumbSchema b) ∧
    last (BreadcrumbSchema.itemListElement b) = Some i ∧
    BreadcrumbListItem.item i = ArticleSchema.mainEntityOfPage a.
Proof.
  intros Hpost Ha Hb Hbase.
  eexists (article_of p ao), (breadcrumb_of p bo), _.
  split; [by apply generateArticleSchema_returned |].
  split; [by apply generateBreadcrumbSchema_returned |].
  split; [reflexivity |].
  cbn. by rewrite Hbase.
Qed.

(** X4.  The breadcrumb trail is nested: the URL of the blog entry is the
    URL of the home entry followed by "/blog", and the URL of the post entry
    is the URL of the blog entry followed by "/" and the slug. *)
Theorem breadcrumb_items_nested (σ : heap) (post : loc)
    (options : option loc) (p : BlogPost.t) (o : BreadcrumbSchemaOptions.t) :
  σ !! post = Some (OBlogPost p) →
  breadcrumb_options_at σ options o →
  ∃ s home blog entry,
    returned (generateBreadcrumbSchema post options) σ
      = Some (OBreadcrumbSchema s) ∧
    BreadcrumbSchema.itemListElement s = [home; blog; entry] ∧
    BreadcrumbListItem.item blog = BreadcrumbListItem.item home +:+ "/blog" ∧
    BreadcrumbListItem.item entry =
      BreadcrumbListItem.item blog +:+ "/" +:+ BlogPost.slug p.
Proof.
  intros Hpost Ho.
  eexists (breadcrumb_of p o), _, _, _.
  split; [by apply generateBreadcrumbSchema_returned |].
  split; [reflexivity |].
  cbn [BreadcrumbListItem.item]. split.
  - by rewrite !append_assoc.
  - by rewrite !append_assoc.
Qed.

(** X5.  When the base URL in use (the override [options.baseUrl] where
    one is given, "https://kanadojo.com" where not) begins with the
    characters "http", an image that is present begins with "http" too.
    This is so in particular when no base URL override is given. *)
Theorem image_is_absolute (σ : heap) (post : loc) (options : option loc)
    (p : BlogPost.t) (o : ArticleSchemaOptions.t) :
  σ !! post = Some (OBlogPost p) →
  article_options_at σ options o →
  ∃ s, returned (generateArticleSchema post options) σ
       = Some (OArticleSchema s) ∧
    (∀ base,
       match ArticleSchemaOptions.baseUrl o with
       | Some baseUrl => baseUrl
       | None => "https://kanadojo.com"
       end = "http" +:+ base →
       ∀ i, ArticleSchema.image s = Some i → ∃ rest, i = "http" +:+ rest) ∧
    (ArticleSchemaOptions.baseUrl o = None →
     ∀ i, ArticleSchema.image s = Some i → ∃ rest, i = "http" +:+ rest).
Proof.
  intros Hpost Ho. exists (article_of p o).
  split; [by apply generateArticleSchema_returned |].
  assert (Habs : ∀ base,
    ArticleSchemaOptions.baseUrl o ?? BASE_URL = "http" +:+ base →
    ∀ i, ArticleSchema.image (article_of p o) = Some i →
         ∃ rest, i = "http" +:+ rest).
  { intros base Hbase i. cbn [article_of ArticleSchema.image].
    unfold image_of.
    destruct (BlogPost.featuredImage p) as [f|]; [| done].
    destruct (truthy (Some f)); [| done].
    destruct (startsWith f "http") eqn:Hf; intros [= <-].
    - by apply prefix_true_append.
    - exists (base +:+ f). by rewrite Hbase, append_assoc. }
  split.
  - intros base Hbase. apply (Habs base).
    unfold nullish. by destruct (ArticleSchemaOptions.baseUrl o).
  - intros Hnone. apply (Habs "s://kanadojo.com"). by rewrite Hnone.
Qed.

(** X6.  [startsWith('http')] is a plain prefix test: a [featuredImage]
    that begins with the four characters "http" is emitted unchanged
    whatever follows them and whatever the base URL, so a relative file
    name such as "http-cover.png" is not prefixed. *)
Theorem image_http_prefix_passes_through (σ : heap) (post : loc)
    (options : option loc) (p : BlogPost.t) (o : ArticleSchemaOptions.t)
    (rest : string) :
  σ !! post = Some (OBlogPost p) →
  article_options_at σ options o →
  BlogPost.featuredImage p = Some ("http" +:+ rest) →
  ∃ s, returned (generateArticleSchema post options) σ
       = Some (OArticleSchema s) ∧
       ArticleSchema.image s = Some ("http" +:+ rest).
Proof.
  intros Hpost Ho Hf. exists (article_of p o).
  split; [by apply generateArticleSchema_returned |].
  cbn [article_of ArticleSchema.image]. unfold image_of. rewrite Hf.
  unfold startsWith. by rewrite prefix_append.
Qed.


(** X8.  Of the post, the article schema depends on title, description,
    publishedAt, updatedAt, author, locale, slug and featuredImage only:
    two posts that agree on these eight fields give, under the same
    options, structurally equal schemas, whatever their category, tags,
    readingTime, difficulty, relatedPosts, content and headings. *)
Theorem article_depends_on_eight_fields
    (σ1 σ2 : heap) (post1 post2 : loc) (options1 options2 : option loc)
    (p1 p2 : BlogPost.t) (o : ArticleSchemaOptions.t) :
  σ1 !! post1 = Some (OBlogPost p1) →
  σ2 !! post2 = Some (OBlogPost p2) →
  article_options_at σ1 options1 o →
  article_options_at σ2 options2 o →
  BlogPost.title p1 = BlogPost.title p2 →
  BlogPost.description p1 = BlogPost.description p2 →
  BlogPost.publishedAt p1 = BlogPost.publishedAt p2 →
  BlogPost.updatedAt p1 = BlogPost.updatedAt p2 →
  BlogPost.author p1 = BlogPost.author p2 →
  BlogPost.locale p1 = BlogPost.locale p2 →
  BlogPost.slug p1 = BlogPost.slug p2 →
  BlogPost.featuredImage p1 = BlogPost.featuredImage p2 →
  ∃ s, returned (generateArticleSchema post1 options1) σ1
       = Some (OArticleSchema s) ∧
       returned (generateArticleSchema post2 options2) σ2
       = Some (OArticleSchema s).
Proof.
  intros Hp1 Hp2 Ho1 Ho2 Ht Hd Hpa Hu Ha Hl Hs Hf.
  exists (article_of p1 o). split.
  - by apply generateArticleSchema_returned.
  - rewrite (generateArticleSchema_returned σ2 post2 options2 p2 o) by done.
    unfold article_of, dateModified_of, image_of.
    by rewrite Ht, Hd, Hpa, Hu, Ha, Hl, Hs, Hf.
Qed.

(** X9.  Spelling out a default is the same as leaving it out: an options
    object in which every override that is given equals the constant it
    overrides (such as [{ baseUrl: 'https://kanadojo.com' }], which the
    property tests pass, or [{}]) gives the schema that the call without
    options gives, for both generators. *)
Theorem explicit_defaults_same_as_no_options (σ : heap)
    (post aoptions boptions : loc) (p : BlogPost.t)
    (ao : ArticleSchemaOptions.t) (bo : BreadcrumbSchemaOptions.t) :
  σ !! post = Some (OBlogPost p) →
  σ !! aoptions = Some (OArticleSchemaOptions ao) →
  σ !! boptions = Some (OBreadcrumbSchemaOptions bo) →
  override_or_default (ArticleSchemaOptions.baseUrl ao)
    "https://kanadojo.com" "https://kanadojo.com" →
  override_or_default (ArticleSchemaOptions.publisherName ao)
    "KanaDojo" "KanaDojo" →
  override_or_default (ArticleSchemaOptions.publisherLogo ao)
    "https://kanadojo.com/logo.png" "https://kanadojo.com/logo.png" →
  override_or_default (BreadcrumbSchemaOptions.baseUrl bo)
    "https://kanadojo.com" "https://kanadojo.com" →
  override_or_default (BreadcrumbSchemaOptions.homeLabel bo) "Home" "Home" →
  override_or_default (BreadcrumbSchemaOptions.blogLabel bo) "Blog" "Blog" →
  (∃ s, returned (generateArticleSchema post (Some aoptions)) σ
        = Some (OArticleSchema s) ∧
        returned (generateArticleSchema post None) σ
        = Some (OArticleSchema s)) ∧
  (∃ s, returned (generateBreadcrumbSchema post (Some boptions)) σ
        = Some (OBreadcrumbSchema s) ∧
        returned (generateBreadcrumbSchema post None) σ
        = Some (OBreadcrumbSchema s)).
Proof.
  intros Hpost Ha Hb Ha1 Ha2 Ha3 Hb1 Hb2 Hb3. split.
  - exists (article_of p ArticleSchemaOptions.empty). split.
    + rewrite (generateArticleSchema_returned σ post (Some aoptions) p ao)
        by done.
      destruct ao as [[b|] [n|] [l|]]; cbn in Ha1, Ha2, Ha3; by subst.
    + by apply generateArticleSchema_returned.
  - exists (breadcrumb_of p BreadcrumbSchemaOptions.empty). split.
    + rewrite (generateBreadcrumbSchema_returned σ post (Some boptions) p bo)
        by done.
      destruct bo as [[b|] [h|] [l|]]; cbn in Hb1, Hb2, Hb3; by subst.
    + by apply generateBreadcrumbSchema_returned.
Qed.


(** X11.  The optional fields are never empty: a [dateModified] that is
    present is not the empty string, and an [image] that is present is not
    the empty string. *)
Theorem optional_fields_never_empty (σ : heap) (post : loc)
    (options : option loc) (p : BlogPost.t) (o : ArticleSchemaOptions.t) :
  σ !! post = Some (OBlogPost p) →
  article_options_at σ options o →
  ∃ s, returned (generateArticleSchema post options) σ
       = Some (OArticleSchema s) ∧
       ArticleSchema.dateModified s ≠ Some "" ∧
       ArticleSchema.image s ≠ Some "".
Proof.
  intros Hpost Ho. exists (article_of p o).
  split; [by apply generateArticleSchema_returned |].
  cbn [article_of ArticleSchema.dateModified ArticleSchema.image].
  unfold dateModified_of, image_of. split.
  - by destruct (BlogPost.updatedAt p) as [[|c u]|].
  - destruct (BlogPost.featuredImage p) as [[|c f]|]; cbn [truthy]; [done | | done].
    destruct (startsWith (String c f) "http"); [done |].
    intros [= Hempty]. by apply append_eq_empty in Hempty as [_ ?].
Qed.

(* ===================================================================== *)
(** ** The generators of the property tests *)
(* ===================================================================== *)

Lemma dateArb_all_spec (check : DateParts.t → bool) :
  dateArb_all check = true →
  ∀ d, dateArb_record d → check d = true.
Proof.
  unfold dateArb_all. intros Hall [y m d] (Hy & Hm & Hd); cbn in *.
  rewrite forallb_forall in Hall.
  assert (Hy' : In y (seqZ 2020 11))
    by (apply list_elem_of_In, elem_of_seqZ; lia).
  specialize (Hall y Hy'). rewrite forallb_forall in Hall.
  assert (Hm' : In m (seqZ 1 12))
    by (apply list_elem_of_In, elem_of_seqZ; lia).
  specialize (Hall m Hm'). rewrite forallb_forall in Hall.
  apply Hall, list_elem_of_In, elem_of_seqZ. lia.
Qed.


Lemma append_empty_r (s : string) : s +:+ "" = s.
Proof. induction s as [|c s IH]; [done |]. by rewrite append_cons, IH. Qed.

Lemma slug_from_part (after_alnum : bool) (part rest : string) :
  is_slug_part part = true →
  slug_from after_alnum (part +:+ rest) = slug_from true rest.
Proof.
  destruct part as [|c part]; [done |]. cbn [is_slug_part].
  revert after_alnum c. induction part as [|c' part IH]; intros b c Hpart.
  - cbn in Hpart. rewrite andb_true_r in Hpart.
    rewrite append_cons. cbn [slug_from]. by rewrite Hpart.
  - cbn [all_chars] in Hpart. apply andb_true_iff in Hpart as [Hc Hpart].
    rewrite append_cons. cbn [slug_from]. rewrite Hc. by apply IH.
Qed.


(** X13.  Distinct generated dates print differently: on the records
    [dateArb] generates, its callback is injective. *)
Theorem dateArb_map_injective (d1 d2 : DateParts.t) :
  dateArb_record d1 →
  dateArb_record d2 →
  dateArb_map d1 = dateArb_map d2 →
  d1 = d2.
Proof.
  intros H1 H2 Heq.
  assert (Hall : dateArb_all (λ d,
            match parse_date (dateArb_map d) with
            | Some d' =>
                Z.eqb (DateParts.year d') (DateParts.year d) &&
                Z.eqb (DateParts.month d') (DateParts.month d) &&
                Z.eqb (DateParts.day d') (DateParts.day d)
            | None => false
            end) = true)
    by (vm_compute; reflexivity).
  pose proof (dateArb_all_spec _ Hall d1 H1) as P1.
  pose proof (dateArb_all_spec _ Hall d2 H2) as P2.
  cbv beta in P1, P2. rewrite Heq in P1.
  destruct (parse_date (dateArb_map d2)) as [d'|]; [| done].
  apply andb_true_iff in P1 as [P1 Pd1]. apply andb_true_iff in P1 as [Py1 Pm1].
  apply andb_true_iff in P2 as [P2 Pd2]. apply andb_true_iff in P2 as [Py2 Pm2].
  apply Z.eqb_eq in Py1, Pm1, Pd1, Py2, Pm2, Pd2.
  destruct d1, d2; cbn in *. congruence.
Qed.

(** X14.  Every slug the tests generate matches
    [/^[a-z0-9]+(-[a-z0-9]+)*$/]: joining at least one part, each of which
    matches [/^[a-z0-9]+$/], gives a non-empty string of lower-case letters,
    digits and single hyphens that neither starts nor ends with a hyphen. *)
Theorem slugArb_map_is_slug (parts : list string) :
  parts ≠ [] →
  Forall (λ part, is_slug_part part = true) parts →
  is_slug (slugArb_map parts) = true ∧ slugArb_map parts ≠ "".
Proof.
  intros Hne Hparts. unfold is_slug, slugArb_map, join.
  destruct parts as [|part parts]; [done |]. clear Hne.
  revert part Hparts. induction parts as [|next parts IH]; intros part Hparts.
  - apply Forall_cons in Hparts as [Hpart _]. cbn [String.concat]. split.
    + rewrite <- (append_empty_r part). by rewrite slug_from_part.
    + by destruct part.
  - apply Forall_cons in Hparts as [Hpart Hparts].
    change (String.concat "-" (part :: next :: parts))
      with (part +:+ "-" +:+ String.concat "-" (next :: parts)).
    split.
    + rewrite slug_from_part by done.
      rewrite append_cons. cbn [slug_from is_lower_alnum]. 
      change (is_lower_alnum "-") with false. cbv iota.
      change (Ascii.eqb "-" "-") with true. cbv iota.
      cbn [andb String.append]. by apply IH.
    + intros Hempty. apply append_eq_empty in Hempty as [-> _]. done.
Qed.


(* ===================================================================== *)
(** ** The further properties at the example inputs *)
(* ===================================================================== *)

Lemma breadcrumb_context_and_type_witness :
  blog_heap !! 1%positive = Some (OBlogPost intro_post) ∧
  ∃ s, returned (generateBreadcrumbSchema 1 (Some 11%positive)) blog_heap
       = Some (OBreadcrumbSchema s) ∧
       BreadcrumbSchema.type s = "BreadcrumbList".
Proof.
  assert (H1 : blog_heap !! 1%positive = Some (OBlogPost intro_post))
    by reflexivity.
  split; [exact H1 |].
  destruct (breadcrumb_context_and_type blog_heap 1 (Some 11%positive)
              intro_post test_breadcrumb_options H1 eq_refl)
    as (s & Hs & _ & Hty).
  exists s. split; [exact Hs | exact Hty].
Defined.

Lemma empty_string_overrides_are_kept_witness :
  blog_heap !! 1%positive = Some (OBlogPost intro_post) ∧
  blog_heap !! 12%positive = Some (OArticleSchemaOptions blank_article_options) ∧
  blog_heap !! 13%positive
    = Some (OBreadcrumbSchemaOptions blank_breadcrumb_options) ∧
  (∃ s, returned (generateArticleSchema 1 (Some 12%positive)) blog_heap
        = Some (OArticleSchema s) ∧
        ArticleSchema.mainEntityOfPage s = "/en/blog/intro" ∧
        Organization.name (ArticleSchema.publisher s) = "") ∧
  (∃ s, returned (generateBreadcrumbSchema 1 (Some 13%positive)) blog_heap
        = Some (OBreadcrumbSchema s) ∧
        BreadcrumbListItem.item <$> BreadcrumbSchema.itemListElement s =
        [ "/en"; "/en/blog"; "/en/blog/intro" ]).
Proof.
  assert (H1 : blog_heap !! 1%positive = Some (OBlogPost intro_post))
    by reflexivity.
  assert (H2 : blog_heap !! 12%positive
               = Some (OArticleSchemaOptions blank_article_options))
    by reflexivity.
  assert (H3 : blog_heap !! 13%positive
               = Some (OBreadcrumbSchemaOptions blank_breadcrumb_options))
    by reflexivity.
  split; [exact H1 |]. split; [exact H2 |]. split; [exact H3 |].
  destruct (empty_string_overrides_are_kept blog_heap 1 12 13 intro_post
              blank_article_options blank_breadcrumb_options H1 H2 H3)
    as [(a & Ha & Hm & Hn & _) (b & Hb & Hi & _)].
  split.
  - exists a. split; [exact Ha |].
    split; [exact (Hm eq_refl) | exact (Hn eq_refl)].
  - exists b. split; [exact Hb | exact (Hi eq_refl)].
Defined.

Lemma last_breadcrumb_is_mainEntityOfPage_witness :
  blog_heap !! 2%positive = Some (OBlogPost updated_post) ∧
  ∃ a b i,
    returned (generateArticleSchema 2 (Some 4%positive)) blog_heap
      = Some (OArticleSchema a) ∧
    returned (generateBreadcrumbSchema 2 (Some 5%positive)) blog_heap
      = Some (OBreadcrumbSchema b) ∧
    last (BreadcrumbSchema.itemListElement b) = Some i ∧
    BreadcrumbListItem.item i = ArticleSchema.mainEntityOfPage a.
Proof.
  assert (H1 : blog_heap !! 2%positive = Some (OBlogPost updated_post))
    by reflexivity.
  split; [exact H1 |].
  apply (last_breadcrumb_is_mainEntityOfPage blog_heap 2
           (Some 4%positive) (Some 5%positive) updated_post
           staging_article_options staging_breadcrumb_options H1);
    reflexivity.
Defined.

Lemma breadcrumb_items_nested_witness :
  blog_heap !! 2%positive = Some (OBlogPost updated_post) ∧
  ∃ s home blog entry,
    returned (generateBreadcrumbSchema 2 (Some 5%positive)) blog_heap
      = Some (OBreadcrumbSchema s) ∧
    BreadcrumbSchema.itemListElement s = [home; blog; entry] ∧
    BreadcrumbListItem.item blog = BreadcrumbListItem.item home +:+ "/blog" ∧
    BreadcrumbListItem.item entry =
      BreadcrumbListItem.item blog +:+ "/" +:+ "intro".
Proof.
  assert (H1 : blog_heap !! 2%positive = Some (OBlogPost updated_post))
    by reflexivity.
  split; [exact H1 |].
  apply (breadcrumb_items_nested blog_heap 2 (Some 5%positive) updated_post
           staging_breadcrumb_options H1); reflexivity.
Defined.

Lemma image_is_absolute_witness :
  blog_heap !! 2%positive = Some (OBlogPost updated_post) ∧
  article_options_at blog_heap (Some 4%positive) staging_article_options ∧
  ∃ s, returned (generateArticleSchema 2 (Some 4%positive)) blog_heap
       = Some (OArticleSchema s) ∧
       ArticleSchema.image s = Some "https://staging.example/blog/image1.jpg" ∧
       ∃ rest, "https://staging.example/blog/image1.jpg" = "http" +:+ rest.
Proof.
  assert (H1 : blog_heap !! 2%positive = Some (OBlogPost updated_post))
    by reflexivity.
  assert (H2 : article_options_at blog_heap (Some 4%positive)
                 staging_article_options) by reflexivity.
  split; [exact H1 |]. split; [exact H2 |].
  destruct (image_is_absolute blog_heap 2 (Some 4%positive) updated_post
              staging_article_options H1 H2)
    as (s & Hs & Habs & _).
  assert (Himage : ArticleSchema.image s
                   = Some "https://staging.example/blog/image1.jpg").
  { rewrite (generateArticleSchema_returned blog_heap 2 (Some 4%positive)
               updated_post staging_article_options H1 H2) in Hs.
    injection Hs as <-. reflexivity. }
  exists s. split; [exact Hs |]. split; [exact Himage |].
  exact (Habs "s://staging.example" eq_refl _ Himage).
Defined.

Lemma image_http_prefix_passes_through_witness :
  blog_heap !! 14%positive = Some (OBlogPost http_named_post) ∧
  ∃ s, returned (generateArticleSchema 14 (Some 4%positive)) blog_heap
       = Some (OArticleSchema s) ∧
       ArticleSchema.image s = Some "http-cover.png".
Proof.
  assert (H1 : blog_heap !! 14%positive = Some (OBlogPost http_named_post))
    by reflexivity.
  split; [exact H1 |].
  apply (image_http_prefix_passes_through blog_heap 14 (Some 4%positive)
           http_named_post staging_article_options "-cover.png" H1);
    reflexivity.
Defined.


Lemma article_depends_on_eight_fields_witness :
  blog_heap !! 2%positive = Some (OBlogPost updated_post) ∧
  retagged_heap !! 20%positive = Some (OBlogPost retagged_post) ∧
  updated_post ≠ retagged_post ∧
  ∃ s, returned (generateArticleSchema 2 None) blog_heap
       = Some (OArticleSchema s) ∧
       returned (generateArticleSchema 20 None) retagged_heap
       = Some (OArticleSchema s).
Proof.
  assert (H1 : blog_heap !! 2%positive = Some (OBlogPost updated_post))
    by reflexivity.
  assert (H2 : retagged_heap !! 20%positive = Some (OBlogPost retagged_post))
    by reflexivity.
  split; [exact H1 |]. split; [exact H2 |]. split; [discriminate |].
  apply (article_depends_on_eight_fields blog_heap retagged_heap 2 20
           None None updated_post retagged_post ArticleSchemaOptions.empty
           H1 H2); reflexivity.
Defined.

Lemma explicit_defaults_same_as_no_options_witness :
  blog_heap !! 1%positive = Some (OBlogPost intro_post) ∧
  blog_heap !! 10%positive = Some (OArticleSchemaOptions test_article_options) ∧
  blog_heap !! 11%positive
    = Some (OBreadcrumbSchemaOptions test_breadcrumb_options) ∧
  (∃ s, returned (generateArticleSchema 1 (Some 10%positive)) blog_heap
        = Some (OArticleSchema s) ∧
        returned (generateArticleSchema 1 None) blog_heap
        = Some (OArticleSchema s)) ∧
  (∃ s, returned (generateBreadcrumbSchema 1 (Some 11%positive)) blog_heap
        = Some (OBreadcrumbSchema s) ∧
        returned (generateBreadcrumbSchema 1 None) blog_heap
        = Some (OBreadcrumbSchema s)).
Proof.
  assert (H1 : blog_heap !! 1%positive = Some (OBlogPost intro_post))
    by reflexivity.
  assert (H2 : blog_heap !! 10%positive
               = Some (OArticleSchemaOptions test_article_options))
    by reflexivity.
  assert (H3 : blog_heap !! 11%positive
               = Some (OBreadcrumbSchemaOptions test_breadcrumb_options))
    by reflexivity.
  split; [exact H1 |]. split; [exact H2 |]. split; [exact H3 |].
  apply (explicit_defaults_same_as_no_options blog_heap 1 10 11 intro_post
           test_article_options test_breadcrumb_options H1 H2 H3);
    reflexivity.
Defined.


Lemma optional_fields_never_empty_witness :
  blog_heap !! 3%positive = Some (OBlogPost blank_post) ∧
  ∃ s, returned (generateArticleSchema 3 (Some 12%positive)) blog_heap
       = Some (OArticleSchema s) ∧
       ArticleSchema.dateModified s ≠ Some "" ∧
       ArticleSchema.image s ≠ Some "".
Proof.
  assert (H1 : blog_heap !! 3%positive = Some (OBlogPost blank_post))
    by reflexivity.
  split; [exact H1 |].
  apply (optional_fields_never_empty blog_heap 3 (Some 12%positive)
           blank_post blank_article_options H1); reflexivity.
Defined.


Lemma dateArb_map_injective_witness :
  dateArb_record (DateParts.mk 2030 12 28) ∧
  DateParts.mk 2030 12 28 = DateParts.mk 2030 (6 + 6) (14 * 2).
Proof.
  assert (H1 : dateArb_record (DateParts.mk 2030 12 28))
    by (unfold dateArb_record; cbn; lia).
  split; [exact H1 |].
  apply (dateArb_map_injective (DateParts.mk 2030 12 28)
           (DateParts.mk 2030 (6 + 6) (14 * 2)) H1);
    [unfold dateArb_record; cbn; lia | reflexivity].
Defined.

Lemma slugArb_map_is_slug_witness :
  slugArb_map ["kana"; "101"] = "kana-101" ∧
  is_slug (slugArb_map ["kana"; "101"]) = true ∧
  slugArb_map ["kana"; "101"] ≠ "".
Proof.
  split; [reflexivity |].
  apply (slugArb_map_is_slug ["kana"; "101"]); [discriminate |].
  repeat constructor.
Defined.

